(** * RideEasy build-and-run script (run.py): model and verified properties

    The script is a straight pipeline

      Preflight -> Clean -> Compiler Resolver -> Build -> Run

    whose every step talks to the host: it probes and deletes files, looks
    compilers up on the search path, spawns child processes and prints.
    The embedding keeps that shape.  The host is a record of oracles
    ([Host]), the working directory is the state threaded through a small
    state/exception/trace monad ([M]), and each Python function of run.py is
    one definition with the same name and the same control flow.

    Layout: the Python values and the host; the monad; run.py; the
    vocabulary used to read a run (what was spawned, probed, removed);
    example hosts; lemmas that execute each stage symbolically; the
    properties of the specification, C1 to C10; their instances on the
    example hosts. *)

From stdpp Require Import base strings list gmap pretty.
From Stdlib Require Import ZArith Lia.

Open Scope string_scope.
Open Scope list_scope.
Open Scope Z_scope.

(** ** Python values the script relies on *)

(** The exception classes that can cross the script's [try] blocks.
    [CalledProcessError], [TimeoutExpired], [OSError] (which stands for its
    subclasses too: [FileNotFoundError], [PermissionError],
    [IsADirectoryError]) and [UnicodeDecodeError] derive from [Exception];
    [KeyboardInterrupt] derives from [BaseException] only. *)
Inductive exn : Type :=
| CalledProcessError (cmd : list string) (returncode : Z)
| TimeoutExpired (cmd : list string) (timeout : Z)
| OSError (strerror : string)
| UnicodeDecodeError (reason : string)
| KeyboardInterrupt.

Definition is_Exception (e : exn) : bool :=
  match e with
  | KeyboardInterrupt => false
  | _ => true
  end.

Definition is_TimeoutExpired (e : exn) : bool :=
  match e with
  | TimeoutExpired _ _ => true
  | _ => false
  end.

Definition is_CalledProcessError (e : exn) : bool :=
  match e with
  | CalledProcessError _ _ => true
  | _ => false
  end.

Definition is_KeyboardInterrupt (e : exn) : bool :=
  match e with
  | KeyboardInterrupt => true
  | _ => false
  end.

(** [' '.join(cmd)] and friends. *)
Fixpoint join (sep : string) (l : list string) : string :=
  match l with
  | [] => ""
  | [x] => x
  | x :: rest => x +:+ sep +:+ join sep rest
  end.

(** [repr] of a string free of quotes, backslashes and control characters
    (every file name of the script is), and of a list of such strings, as
    an f-string renders [{missing_files}]. *)
Definition py_repr (s : string) : string := "'" +:+ s +:+ "'".
Definition py_repr_list (l : list string) : string :=
  "[" +:+ join ", " (py_repr <$> l) +:+ "]".

(** [str(e)].  The handlers of run.py only ever format an [OSError] or a
    [UnicodeDecodeError]; the other cases follow CPython's wording for a
    non-negative return code. *)
Definition py_str (e : exn) : string :=
  match e with
  | CalledProcessError cmd rc =>
      "Command '" +:+ py_repr_list cmd +:+ "' returned non-zero exit status "
        +:+ pretty rc +:+ "."
  | TimeoutExpired cmd t =>
      "Command '" +:+ py_repr_list cmd +:+ "' timed out after "
        +:+ pretty t +:+ " seconds"
  | OSError m => m
  | UnicodeDecodeError reason => reason
  | KeyboardInterrupt => ""
  end.

(** [str(x)] of an [Optional[str]], as [print] renders it. *)
Definition py_str_opt (o : option string) : string := default "None" o.

(** The newline an f-string spells [\n]. *)
Definition NL : string := String (Ascii.ascii_of_nat 10) EmptyString.

(** [s * n] on strings. *)
Fixpoint str_mul (s : string) (n : nat) : string :=
  match n with
  | O => ""
  | S n' => s +:+ str_mul s n'
  end.

(** [sub in s]: substring test. *)
Fixpoint str_in (sub s : string) : bool :=
  String.prefix sub s ||
  match s with
  | EmptyString => false
  | String _ s' => str_in sub s'
  end.

(** Truthiness of [Optional[str]] ([if x:], [if not x:]). *)
Definition truthy (o : option string) : bool :=
  match o with
  | Some s => negb (String.eqb s "")
  | None => false
  end.

(** ** The host *)

(** An entry of the working directory: a file [os.remove] can delete, a
    directory, or a file it may not delete (the directory is read-only, or
    the file is an .exe still running on Windows).  [os.path.exists] is
    true of all three; [os.remove] deletes the first and raises on the
    other two. *)
Inductive node : Type := File | Dir | Locked.

Abbreviation FS := (gmap string node).

(** What a spawned child does, as [subprocess.run] observes it.  The
    output of a completed child is the bytes it wrote. *)
Inductive subprocess_result : Type :=
| Completed (returncode : Z) (stdout stderr : string)
| TimedOut
| SpawnFailed (strerror : string).

(** What the text layer makes of captured bytes ([text=True]): the decoded
    text, or the reason of the [UnicodeDecodeError]. *)
Inductive decoding : Type :=
| Decoded (text : string)
| DecodeError (reason : string).

(** What happens while the script waits in [subprocess.run]: the child
    yields a result, or the operator's interrupt reaches the script. *)
Inductive wait_outcome : Type :=
| Result (r : subprocess_result)
| Interrupt.

(** [stdout] and [stderr] are [None] unless the output was captured. *)
Record CompletedProcess : Type := mkCompleted {
  cp_returncode : Z;
  cp_stdout : option string;
  cp_stderr : option string
}.

Record Host : Type := mkHost {
  (** [Path(__file__).parent.absolute()] *)
  script_dir : string;
  (** [platform.system()] *)
  platform_system : string;
  (** [shutil.which] *)
  shutil_which : string -> option string;
  (** Running a command in a working directory: how the wait ends, and
      the directory the child leaves behind. *)
  spawn : list string -> FS -> wait_outcome * FS;
  (** Decoding captured output in the locale's encoding. *)
  decode : string -> decoding
}.

(** ** Observable effects *)

Inductive event : Type :=
| EPrint (line : string)
| EChdir (dir : string)
| EExists (path : string) (found : bool)
| EWhich (name : string) (found : option string)
| ERemove (path : string)
| ESpawn (cmd : list string) (timeout : option Z) (cwd : FS).
(* [ESpawn] records a call of [subprocess.run], made in directory [cwd];
   whether a child came of it is the host's answer to that call. *)

Inductive result (A : Type) : Type :=
| Ok (a : A)
| Raise (e : exn).
Arguments Ok {A} a.
Arguments Raise {A} e.

(** ** The monad: working directory in, outcome, working directory and
    trace out.  An exception keeps the state and the trace reached. *)
Definition M (A : Type) : Type := FS -> result A * FS * list event.

Definition ret {A} (a : A) : M A := fun fs => (Ok a, fs, []).

Definition bind {A B} (m : M A) (k : A -> M B) : M B :=
  fun fs =>
    match m fs with
    | (Ok a, fs1, t1) =>
        match k a fs1 with
        | (r, fs2, t2) => (r, fs2, t1 ++ t2)
        end
    | (Raise e, fs1, t1) => (Raise e, fs1, t1)
    end.

Definition raise {A} (e : exn) : M A := fun fs => (Raise e, fs, []).
Definition emit (ev : event) : M unit := fun fs => (Ok tt, fs, [ev]).
Definition get_fs : M FS := fun fs => (Ok fs, fs, []).
Definition put_fs (fs' : FS) : M unit := fun _ => (Ok tt, fs', []).

(** [try: body except ...]: [handlers e] is the first [except] clause that
    matches [e], if any; an unmatched exception goes on. *)
Definition try_except {A} (body : M A) (handlers : exn -> option (M A)) : M A :=
  fun fs =>
    match body fs with
    | (Ok a, fs1, t1) => (Ok a, fs1, t1)
    | (Raise e, fs1, t1) =>
        match handlers e with
        | Some h =>
            match h fs1 with
            | (r, fs2, t2) => (r, fs2, t1 ++ t2)
            end
        | None => (Raise e, fs1, t1)
        end
    end.

#[global] Instance M_ret : MRet M := @ret.
#[global] Instance M_bind : MBind M := fun A B k m => bind m k.
#[global] Instance M_throw : MThrow exn M := @raise.

Definition outcome {A} (r : result A * FS * list event) : result A := r.1.1.
Definition final_fs {A} (r : result A * FS * list event) : FS := r.1.2.
Definition trace {A} (r : result A * FS * list event) : list event := r.2.

(** An [if] without [else]. *)
Definition when_ (b : bool) (m : M unit) : M unit :=
  if b then m else mret tt.

(** ** Primitives *)

Definition print (line : string) : M unit := emit (EPrint line).

Definition path_exists (fs : FS) (p : string) : bool :=
  match fs !! p with
  | Some _ => true
  | None => false
  end.

Definition os_path_exists (p : string) : M bool :=
  fs ← get_fs;
  let b := path_exists fs p in
  emit (EExists p b);;
  mret b.

(** [os.remove], with the messages of CPython on a POSIX host. *)
Definition os_remove (p : string) : M unit :=
  fs ← get_fs;
  match fs !! p with
  | Some File => put_fs (delete p fs);; emit (ERemove p)
  | Some Dir => mthrow (OSError ("[Errno 21] Is a directory: " +:+ py_repr p))
  | Some Locked => mthrow (OSError ("[Errno 13] Permission denied: " +:+ py_repr p))
  | None => mthrow (OSError ("[Errno 2] No such file or directory: " +:+ py_repr p))
  end.

Section Script.

Variable host : Host.

Definition which (name : string) : M (option string) :=
  let r := shutil_which host name in
  emit (EWhich name r);;
  mret r.

(** What [subprocess.run] makes of the output of a completed child: with
    [capture_output=True, text=True] it decodes stdout, then stderr, and a
    failure of either is a [UnicodeDecodeError]; without them the child
    writes to the terminal and both attributes are [None]. *)
Definition collect_output (capture_text : bool) (out err : string)
  : M (option string * option string) :=
  if capture_text then
    match decode host out with
    | DecodeError reason => mthrow (UnicodeDecodeError reason)
    | Decoded o =>
        match decode host err with
        | DecodeError reason => mthrow (UnicodeDecodeError reason)
        | Decoded e => mret (Some o, Some e)
        end
    end
  else mret (None, None).

(** [subprocess.run(cmd, capture_output=..., text=..., timeout=...,
    check=...)]; [capture_text] stands for [capture_output=True, text=True],
    which run.py passes together or not at all.  A timeout is raised as
    [TimeoutExpired]; a child that could not be started as [OSError];
    captured output that does not decode as [UnicodeDecodeError]; with
    [check=True] a non-zero return code as [CalledProcessError]. *)
Definition subprocess_run
    (cmd : list string) (capture_text : bool) (timeout : option Z) (check : bool)
  : M CompletedProcess :=
  fs ← get_fs;
  emit (ESpawn cmd timeout fs);;
  let '(w, fs') := spawn host cmd fs in
  put_fs fs';;
  match w with
  | Result (Completed rc out err) =>
      '(o, e) ← collect_output capture_text out err;
      if check && negb (rc =? 0)
      then mthrow (CalledProcessError cmd rc)
      else mret (mkCompleted rc o e)
  | Result TimedOut => mthrow (TimeoutExpired cmd (default 0 timeout))
  | Result (SpawnFailed m) => mthrow (OSError m)
  | Interrupt => mthrow KeyboardInterrupt
  end.

(** *** run.py *)

Definition print_header : M unit :=
  print (str_mul "=" 50);;
  print "🚗 RideEasy - Ride Sharing Platform";;
  print (str_mul "=" 50).

Definition compilers : list string := ["g++"; "clang++"].

(** The [for] loop of [check_compiler]: it returns from inside the loop at
    the first name [shutil.which] finds, and falls out of it otherwise. *)
Fixpoint check_compiler_loop (cs : list string) : M (option string) :=
  match cs with
  | [] => mret None
  | compiler :: rest =>
      r ← which compiler;
      if truthy r
      then print ("✅ Found compiler: " +:+ compiler);; mret (Some compiler)
      else check_compiler_loop rest
  end.

Definition check_compiler : M (option string) :=
  r ← check_compiler_loop compilers;
  match r with
  | Some compiler => mret (Some compiler)
  | None =>
      print "❌ No C++ compiler found!";;
      print "Please install one of the following:";;
      print "  - MinGW-w64 (Windows): https://www.mingw-w64.org/";;
      print "  - GCC (Linux): sudo apt install g++";;
      print "  - Xcode Command Line Tools (macOS): xcode-select --install";;
      mret None
  end.

Definition files_to_remove : list string := ["rideeasy.exe"; "rideeasy"; "a.out"].

Fixpoint clean_build_loop (files : list string) : M unit :=
  match files with
  | [] => mret tt
  | file :: rest =>
      b ← os_path_exists file;
      when_ b (os_remove file;; print ("🧹 Cleaned: " +:+ file));;
      clean_build_loop rest
  end.

Definition clean_build : M unit := clean_build_loop files_to_remove.

Definition is_windows : bool := String.eqb (platform_system host) "Windows".

(** [exe_name] and [cmd] as [compile_project] builds them. *)
Definition exe_name : string :=
  if is_windows then "rideeasy.exe" else "rideeasy".

Definition build_cmd (compiler : string) : list string :=
  let cmd :=
    [ compiler; "-std=c++17"; "-Wall"; "-Wextra"; "-O2"; "-I."; "main.cpp";
      "-o"; exe_name ] in
  if is_windows && str_in "g++" compiler
  then cmd ++ ["-static-libgcc"; "-static-libstdc++"]
  else cmd.

Definition compile_project (compiler : string) : M (option string) :=
  print (NL +:+ "🔨 Compiling with " +:+ compiler +:+ "...");;
  let cmd := build_cmd compiler in
  print ("Command: " +:+ join " " cmd);;
  try_except
    (result ← subprocess_run cmd true (Some 30) false;
     if cp_returncode result =? 0
     then
       print "✅ Compilation successful!";;
       mret (Some exe_name)
     else
       print "❌ Compilation failed!";;
       print ("STDOUT: " +:+ py_str_opt (cp_stdout result));;
       print ("STDERR: " +:+ py_str_opt (cp_stderr result));;
       mret None)
    (fun e =>
       if is_TimeoutExpired e then Some (
         print "❌ Compilation timed out!";;
         mret None)
       else if is_Exception e then Some (
         print ("❌ Compilation error: " +:+ py_str e);;
         mret None)
       else None).

Definition returncode_of (e : exn) : Z :=
  match e with
  | CalledProcessError _ rc => rc
  | _ => 0
  end.

Definition run_executable (exe_name : string) : M unit :=
  print (NL +:+ "🚀 Running " +:+ exe_name +:+ "...");;
  print (str_mul "-" 50);;
  try_except
    ((if is_windows
      then subprocess_run [exe_name] false None true
      else subprocess_run ["./" +:+ exe_name] false None true);;
     print (str_mul "-" 50);;
     print "✅ Program executed successfully!")
    (fun e =>
       if is_CalledProcessError e then Some (
         print ("❌ Runtime error (exit code " +:+ pretty (returncode_of e) +:+ ")"))
       else if is_KeyboardInterrupt e then Some (
         print (NL +:+ "⚠️ Program interrupted by user"))
       else if is_Exception e then Some (
         print ("❌ Execution error: " +:+ py_str e))
       else None).

Definition required_files : list string := ["main.cpp"; "User.h"; "RideManager.h"].

(** [[f for f in files if not os.path.exists(f)]] *)
Fixpoint missing_of (files : list string) : M (list string) :=
  match files with
  | [] => mret []
  | f :: rest =>
      b ← os_path_exists f;
      tl ← missing_of rest;
      mret (if b : bool then tl else f :: tl)
  end.

Definition main : M Z :=
  print_header;;
  emit (EChdir (script_dir host));;
  print ("📁 Working directory: " +:+ script_dir host);;
  missing_files ← missing_of required_files;
  match missing_files with
  | _ :: _ =>
      print ("❌ Missing required files: " +:+ py_repr_list missing_files);;
      mret 1
  | [] =>
      clean_build;;
      compiler ← check_compiler;
      if negb (truthy compiler) then mret 1 else
      exe_name ← compile_project (default "" compiler);
      if negb (truthy exe_name) then mret 1 else
      run_executable (default "" exe_name);;
      mret 0
  end.

End Script.

(** * Reading a run *)

(** What a trace says about calls of [subprocess.run] and about compiler
    probes. *)
Definition spawn_of (ev : event) : option (list string * option Z * FS) :=
  match ev with
  | ESpawn cmd t cwd => Some (cmd, t, cwd)
  | _ => None
  end.

Definition probe_of (ev : event) : option string :=
  match ev with
  | EWhich name _ => Some name
  | _ => None
  end.

Definition removal_of (ev : event) : option string :=
  match ev with
  | ERemove p => Some p
  | _ => None
  end.

Definition spawns (t : list event) : list (list string * option Z * FS) :=
  omap spawn_of t.
Definition probes (t : list event) : list string := omap probe_of t.
Definition removals (t : list event) : list string := omap removal_of t.

Definition missing (fs : FS) (files : list string) : list string :=
  List.filter (fun f => negb (path_exists fs f)) files.

Fixpoint del_all (files : list string) (fs : FS) : FS :=
  match files with
  | [] => fs
  | f :: rest => del_all rest (delete f fs)
  end.

(** Every one of [files] that exists is a file [os.remove] can delete. *)
Definition removable (files : list string) (fs : FS) : Prop :=
  forall f, f ∈ files -> fs !! f = None \/ fs !! f = Some File.

(** What [text=True] makes of the captured stdout and stderr: both texts,
    or the reason the first of them that fails to decode gives. *)
Definition captured (host : Host) (out err : string) : string * string + string :=
  match decode host out with
  | DecodeError reason => inr reason
  | Decoded o =>
      match decode host err with
      | DecodeError reason => inr reason
      | Decoded e => inl (o, e)
      end
  end.

(** The build child returned 0 and what it wrote decodes. *)
Definition built (host : Host) (rc : Z) (out err : string) : bool :=
  match captured host out err with
  | inl _ => rc =? 0
  | inr _ => false
  end.

(** The commands a trace shows being run, in order. *)
Definition spawned (t : list event) : list (list string) :=
  (fun s => s.1.1) <$> spawns t.

(** The arguments a compiler driver reads as input files: not an option
    (a token that starts with a dash) and not the operand of -o. *)
Fixpoint input_files (args : list string) : list string :=
  match args with
  | [] => []
  | a :: rest =>
      if String.eqb a "-o" then
        match rest with
        | [] => []
        | _ :: rest' => input_files rest'
        end
      else if String.prefix "-" a then input_files rest
      else a :: input_files rest
  end.

Definition found (host : Host) (c : string) : bool := truthy (shutil_which host c).

Definition no_compiler_lines : list event :=
  [ EPrint "❌ No C++ compiler found!";
    EPrint "Please install one of the following:";
    EPrint "  - MinGW-w64 (Windows): https://www.mingw-w64.org/";
    EPrint "  - GCC (Linux): sudo apt install g++";
    EPrint "  - Xcode Command Line Tools (macOS): xcode-select --install" ].

Definition build_prefix (host : Host) (compiler : string) (fs : FS) : list event :=
  [ EPrint (NL +:+ "🔨 Compiling with " +:+ compiler +:+ "...");
    EPrint ("Command: " +:+ join " " (build_cmd host compiler));
    ESpawn (build_cmd host compiler) (Some 30) fs ].

Definition run_cmd (host : Host) (exe : string) : list string :=
  if is_windows host then [exe] else ["./" +:+ exe].

Definition run_prefix (host : Host) (exe : string) (fs : FS) : list event :=
  [ EPrint (NL +:+ "🚀 Running " +:+ exe +:+ "...");
    EPrint (str_mul "-" 50);
    ESpawn (run_cmd host exe) None fs ].

Definition preflight_trace (host : Host) (fs : FS) : list event :=
  [ EPrint (str_mul "=" 50);
    EPrint "🚗 RideEasy - Ride Sharing Platform";
    EPrint (str_mul "=" 50);
    EChdir (script_dir host);
    EPrint ("📁 Working directory: " +:+ script_dir host) ] ++
  ((fun f => EExists f (path_exists fs f)) <$> required_files).

(** The lines a trace shows being printed, in order. *)
Definition print_of (ev : event) : option string :=
  match ev with
  | EPrint line => Some line
  | _ => None
  end.

Definition printed (t : list event) : list string := omap print_of t.

(** * Example hosts and working directories *)

(** A text layer that takes 7-bit bytes and nothing else. *)
Fixpoint all_ascii (s : string) : bool :=
  match s with
  | EmptyString => true
  | String c s' => (Ascii.nat_of_ascii c <? 128)%nat && all_ascii s'
  end.

Definition ascii_codec (s : string) : decoding :=
  if all_ascii s
  then Decoded s
  else DecodeError "'ascii' codec can't decode: ordinal not in range(128)".

(** A checkout with a stale rideeasy binary and a directory called a.out. *)
Definition blocked_checkout : FS :=
  list_to_map
    [ ("main.cpp", File); ("User.h", File); ("RideManager.h", File);
      ("rideeasy", File); ("a.out", Dir) ].

(** A Linux machine with g++ whose operator interrupts every child. *)
Definition interrupted_box : Host :=
  mkHost "/home/dev/ride" "Linux"
    (fun name => if String.eqb name "g++" then Some "/usr/bin/g++" else None)
    (fun _ fs => (Interrupt, fs))
    Decoded.


(** A Linux machine with g++ on the path: the compiler succeeds and leaves
    the artifact behind, the artifact exits with status 3. *)
Definition linux_box : Host :=
  mkHost "/home/dev/ride" "Linux"
    (fun name => if String.eqb name "g++" then Some "/usr/bin/g++" else None)
    (fun cmd fs =>
       match cmd with
       | [_] => (Result (Completed 3 "" ""), fs)
       | _ => (Result (Completed 0 "" ""), <["rideeasy" := File]> fs)
       end)
    Decoded.

(** A Windows machine with clang++ only: the compiler rejects the source,
    and nothing could be launched. *)
Definition windows_box : Host :=
  mkHost "C:/ride" "Windows"
    (fun name =>
       if String.eqb name "clang++" then Some "C:/llvm/bin/clang++.EXE" else None)
    (fun cmd fs =>
       match cmd with
       | [_] => (Result (SpawnFailed "[WinError 2]"), fs)
       | _ => (Result (Completed 1 "" "main.cpp:3:1: error: expected ';'"), fs)
       end)
    Decoded.

(** A machine without a compiler, whose operator interrupts every child. *)
Definition bare_box : Host :=
  mkHost "/srv/ride" "Darwin" (fun _ => None) (fun _ fs => (Interrupt, fs))
    Decoded.

Definition checkout : FS :=
  list_to_map [("main.cpp", File); ("User.h", File); ("RideManager.h", File)].

Definition stale_checkout : FS :=
  <["rideeasy" := File]> (<["a.out" := File]> checkout).

Definition partial_checkout : FS := {["main.cpp" := File]}.

(** A checkout whose stale rideeasy.exe is still running and cannot be
    deleted. *)
Definition locked_checkout : FS := <["rideeasy.exe" := Locked]> checkout.

(** * Reasoning about runs *)

Lemma bind_run {A B} (m : M A) (k : A -> M B) fs :
  (m ≫= k) fs =
  match m fs with
  | (Ok a, fs1, t1) => match k a fs1 with (r, fs2, t2) => (r, fs2, t1 ++ t2) end
  | (Raise e, fs1, t1) => (Raise e, fs1, t1)
  end.
Proof. reflexivity. Qed.

Lemma os_path_exists_run p fs :
  os_path_exists p fs =
  (Ok (path_exists fs p), fs, [EExists p (path_exists fs p)]).
Proof. reflexivity. Qed.

Ltac run :=
  cbv beta iota zeta delta
    [mbind M_bind bind mret M_ret ret mthrow M_throw raise emit get_fs put_fs
     when_ print os_remove os_path_exists which collect_output subprocess_run
     try_except].

Arguments str_mul : simpl never.
Arguments spawns : simpl never.
Arguments probes : simpl never.
Arguments removals : simpl never.

Lemma spawns_app t1 t2 : spawns (t1 ++ t2) = spawns t1 ++ spawns t2.
Proof. apply omap_app. Qed.

Lemma spawns_cons ev t :
  spawns (ev :: t) =
  match spawn_of ev with Some s => s :: spawns t | None => spawns t end.
Proof. reflexivity. Qed.

Lemma spawns_nil : spawns [] = [].
Proof. reflexivity. Qed.

Lemma probes_app t1 t2 : probes (t1 ++ t2) = probes t1 ++ probes t2.
Proof. apply omap_app. Qed.

Lemma removals_app t1 t2 : removals (t1 ++ t2) = removals t1 ++ removals t2.
Proof. apply omap_app. Qed.

Lemma In_spawns cmd t cwd tr :
  In (ESpawn cmd t cwd) tr <-> In (cmd, t, cwd) (spawns tr).
Proof.
  rewrite <- !list_elem_of_In. unfold spawns. rewrite list_elem_of_omap. split.
  - intros H. exists (ESpawn cmd t cwd). done.
  - intros (ev & Hin & Hev). destruct ev; simplify_eq/=. done.
Qed.

(** ** Preflight *)

Lemma missing_of_run files fs :
  missing_of files fs =
  (Ok (missing fs files), fs, (fun f => EExists f (path_exists fs f)) <$> files).
Proof.
  induction files as [|f rest IH]; [reflexivity|].
  cbn [missing_of]. rewrite bind_run, os_path_exists_run.
  rewrite bind_run, IH. cbn. rewrite app_nil_r.
  destruct (path_exists fs f); reflexivity.
Qed.

(** ** Clean *)

Lemma del_all_lookup files fs k :
  del_all files fs !! k = if decide (k ∈ files) then None else fs !! k.
Proof.
  revert fs. induction files as [|f rest IH]; intros fs; cbn [del_all].
  - rewrite decide_False by apply not_elem_of_nil. done.
  - rewrite IH. destruct (decide (k ∈ rest)) as [Hin|Hnin].
    + rewrite decide_True by (apply elem_of_cons; by right). done.
    + destruct (decide (k = f)) as [->|Hne].
      * rewrite decide_True by (apply elem_of_cons; by left).
        apply lookup_delete_eq.
      * rewrite decide_False by (by apply not_elem_of_cons).
        by apply lookup_delete_ne.
Qed.

Lemma clean_build_loop_step file rest fs :
  clean_build_loop (file :: rest) fs =
  match fs !! file with
  | None =>
      match clean_build_loop rest fs with
      | (r, fs', t) => (r, fs', EExists file false :: t)
      end
  | Some File =>
      match clean_build_loop rest (delete file fs) with
      | (r, fs', t) =>
          (r, fs',
           EExists file true :: ERemove file
             :: EPrint ("🧹 Cleaned: " +:+ file) :: t)
      end
  | Some Dir =>
      (Raise (OSError ("[Errno 21] Is a directory: " +:+ py_repr file)), fs,
       [EExists file true])
  | Some Locked =>
      (Raise (OSError ("[Errno 13] Permission denied: " +:+ py_repr file)), fs,
       [EExists file true])
  end.
Proof.
  cbn [clean_build_loop]. run. unfold path_exists.
  destruct (fs !! file) as [[| |]|] eqn:E; run; rewrite ?E.
  - destruct (clean_build_loop rest (delete file fs)) as [[r fs'] t]. reflexivity.
  - reflexivity.
  - reflexivity.
  - destruct (clean_build_loop rest fs) as [[r fs'] t]. reflexivity.
Qed.

Lemma clean_build_loop_ok files fs :
  removable files fs ->
  outcome (clean_build_loop files fs) = Ok tt /\
  final_fs (clean_build_loop files fs) = del_all files fs.
Proof.
  revert fs. induction files as [|f rest IH]; intros fs Hnd; [done|].
  rewrite clean_build_loop_step.
  destruct (fs !! f) as [[| |]|] eqn:E.
  - destruct (IH (delete f fs)) as [Ho Hf].
    { intros g Hg. destruct (decide (g = f)) as [->|Hne].
      - left. by rewrite lookup_delete_eq.
      - rewrite lookup_delete_ne by done. apply Hnd, elem_of_cons. by right. }
    destruct (clean_build_loop rest (delete f fs)) as [[r fs'] t]. done.
  - exfalso. destruct (Hnd f) as [?|?]; [apply elem_of_cons; by left|congruence..].
  - exfalso. destruct (Hnd f) as [?|?]; [apply elem_of_cons; by left|congruence..].
  - destruct (IH fs) as [Ho Hf].
    { intros g Hg. apply Hnd, elem_of_cons. by right. }
    destruct (clean_build_loop rest fs) as [[r fs'] t].
    split; [done|]. cbn [final_fs fst snd] in *. rewrite Hf. cbn [del_all].
    by rewrite delete_id.
Qed.

Lemma clean_build_loop_returns files fs :
  outcome (clean_build_loop files fs) = Ok tt ->
  final_fs (clean_build_loop files fs) = del_all files fs.
Proof.
  revert fs. induction files as [|f rest IH]; intros fs; [done|].
  rewrite clean_build_loop_step.
  destruct (fs !! f) as [[| |]|] eqn:E.
  - specialize (IH (delete f fs)).
    destruct (clean_build_loop rest (delete f fs)) as [[r fs'] t]. done.
  - done.
  - done.
  - specialize (IH fs).
    destruct (clean_build_loop rest fs) as [[r fs'] t].
    cbn [outcome final_fs fst snd del_all] in *. intros Ho. rewrite (IH Ho).
    by rewrite delete_id.
Qed.

Lemma clean_build_loop_quiet files fs :
  spawns (trace (clean_build_loop files fs)) = [] /\
  probes (trace (clean_build_loop files fs)) = [].
Proof.
  revert fs. induction files as [|f rest IH]; intros fs; [done|].
  rewrite clean_build_loop_step.
  destruct (fs !! f) as [[| |]|] eqn:E.
  - specialize (IH (delete f fs)).
    destruct (clean_build_loop rest (delete f fs)) as [[r fs'] t]. done.
  - done.
  - done.
  - specialize (IH fs).
    destruct (clean_build_loop rest fs) as [[r fs'] t]. done.
Qed.

Lemma clean_build_loop_absent files fs :
  (forall f, f ∈ files -> fs !! f = None) ->
  clean_build_loop files fs = (Ok tt, fs, (fun f => EExists f false) <$> files).
Proof.
  induction files as [|f rest IH]; intros Habs; [reflexivity|].
  rewrite clean_build_loop_step, (Habs f) by (apply elem_of_cons; by left).
  rewrite IH by (intros g Hg; apply Habs, elem_of_cons; by right).
  reflexivity.
Qed.

(** ** Substring test *)

Lemma prefix_spec sub s :
  String.prefix sub s = true <-> exists post, s = sub +:+ post.
Proof.
  revert s. induction sub as [|a sub IH]; intros s.
  - split; [intros _; by exists s|]. intros _. by destruct s.
  - destruct s as [|b s]; cbn.
    + split; [done|]. intros [post Hp]. discriminate.
    + destruct (Ascii.ascii_dec a b) as [->|Hne].
      * rewrite IH. split; intros [post Hp]; exists post.
        -- cbn. by rewrite Hp.
        -- cbn in Hp. by injection Hp.
      * split; [done|]. intros [post Hp]. cbn in Hp. injection Hp as -> _. done.
Qed.

Lemma str_in_spec sub s :
  str_in sub s = true <-> exists pre post, s = pre +:+ sub +:+ post.
Proof.
  induction s as [|a s IH]; cbn [str_in].
  - rewrite orb_false_r, prefix_spec. split.
    + intros [post Hp]. by exists "", post.
    + intros (pre & post & Hp). destruct pre; [|discriminate]. by exists post.
  - rewrite orb_true_iff, prefix_spec, IH. split.
    + intros [[post Hp]|(pre & post & Hp)].
      * by exists "", post.
      * exists (String a pre), post. cbn. by rewrite Hp.
    + intros (pre & post & Hp). destruct pre as [|b pre].
      * left. by exists post.
      * right. exists pre, post. cbn in Hp. by injection Hp.
Qed.

Section Runs.

Variable host : Host.

(** ** Resolver *)

Lemma check_compiler_loop_run cs fs :
  outcome (check_compiler_loop host cs fs) = Ok (List.find (found host) cs) /\
  final_fs (check_compiler_loop host cs fs) = fs /\
  spawns (trace (check_compiler_loop host cs fs)) = [] /\
  probes (trace (check_compiler_loop host cs fs)) `prefix_of` cs.
Proof.
  induction cs as [|c rest IH]; [done|].
  cbn [check_compiler_loop List.find]. run. fold (found host c).
  destruct (found host c).
  - repeat split; try done. cbn. by apply prefix_cons, prefix_nil.
  - destruct IH as (Ho & Hf & Hs & Hp).
    destruct (check_compiler_loop host rest fs) as [[r fs'] t].
    cbn in *. repeat split; try done. by apply prefix_cons.
Qed.

Lemma check_compiler_run fs :
  outcome (check_compiler host fs) = Ok (List.find (found host) compilers) /\
  final_fs (check_compiler host fs) = fs /\
  spawns (trace (check_compiler host fs)) = [] /\
  probes (trace (check_compiler host fs)) `prefix_of` compilers /\
  (List.find (found host) compilers = None ->
   exists t, trace (check_compiler host fs) = t ++ no_compiler_lines).
Proof.
  destruct (check_compiler_loop_run compilers fs) as (Ho & Hf & Hs & Hp).
  unfold check_compiler. run.
  destruct (check_compiler_loop host compilers fs) as [[r fs'] t].
  cbn [outcome final_fs trace fst snd] in *. subst r fs'.
  destruct (List.find (found host) compilers) as [c|].
  - cbn. rewrite app_nil_r. done.
  - cbn. rewrite spawns_app, probes_app, Hs, !app_nil_r.
    repeat split; try done. intros _. by exists t.
Qed.

(** ** Build *)

Lemma compile_project_run compiler fs :
  compile_project host compiler fs =
  match spawn host (build_cmd host compiler) fs with
  | (Result (Completed rc out err), fs') =>
      match captured host out err with
      | inl (o, e) =>
          if rc =? 0
          then (Ok (Some (exe_name host)), fs',
                build_prefix host compiler fs ++
                [EPrint "✅ Compilation successful!"])
          else (Ok None, fs',
                build_prefix host compiler fs ++
                [ EPrint "❌ Compilation failed!";
                  EPrint ("STDOUT: " +:+ o);
                  EPrint ("STDERR: " +:+ e) ])
      | inr reason =>
          (Ok None, fs',
           build_prefix host compiler fs ++
           [EPrint ("❌ Compilation error: " +:+ reason)])
      end
  | (Result TimedOut, fs') =>
      (Ok None, fs', build_prefix host compiler fs ++ [EPrint "❌ Compilation timed out!"])
  | (Result (SpawnFailed m), fs') =>
      (Ok None, fs',
       build_prefix host compiler fs ++ [EPrint ("❌ Compilation error: " +:+ m)])
  | (Interrupt, fs') => (Raise KeyboardInterrupt, fs', build_prefix host compiler fs)
  end.
Proof.
  unfold compile_project, captured. run.
  destruct (spawn host (build_cmd host compiler) fs) as [[[rc out err| |m]|] fs'];
    cbn; try reflexivity.
  destruct (decode host out) as [o|reason]; [|reflexivity].
  destruct (decode host err) as [e|reason]; [|reflexivity].
  cbn. destruct (rc =? 0); reflexivity.
Qed.

(** ** Run *)

Lemma run_executable_run exe fs :
  run_executable host exe fs =
  match spawn host (run_cmd host exe) fs with
  | (Result (Completed rc out err), fs') =>
      if rc =? 0
      then (Ok tt, fs',
            run_prefix host exe fs ++
            [EPrint (str_mul "-" 50); EPrint "✅ Program executed successfully!"])
      else (Ok tt, fs',
            run_prefix host exe fs ++
            [EPrint ("❌ Runtime error (exit code " +:+ pretty rc +:+ ")")])
  | (Result TimedOut, fs') =>
      (Ok tt, fs',
       run_prefix host exe fs ++
       [EPrint ("❌ Execution error: " +:+ py_str (TimeoutExpired (run_cmd host exe) 0))])
  | (Result (SpawnFailed m), fs') =>
      (Ok tt, fs', run_prefix host exe fs ++ [EPrint ("❌ Execution error: " +:+ m)])
  | (Interrupt, fs') =>
      (Ok tt, fs',
       run_prefix host exe fs ++ [EPrint (NL +:+ "⚠️ Program interrupted by user")])
  end.
Proof.
  unfold run_executable, run_prefix, run_cmd. run.
  destruct (is_windows host); run;
  match goal with |- context [spawn host ?c fs] =>
    destruct (spawn host c fs) as [[[rc out err| |m]|] fs'] end;
    cbn; try reflexivity; destruct (rc =? 0); reflexivity.
Qed.

End Runs.

Section Pipeline.

Variable host : Host.

(** ** The whole pipeline *)

(** A run that stops in Preflight. *)
Lemma main_missing fs :
  missing fs required_files <> [] ->
  main host fs =
  (Ok 1, fs,
   preflight_trace host fs ++
   [EPrint ("❌ Missing required files: "
             +:+ py_repr_list (missing fs required_files))]).
Proof.
  intros Hm. unfold main, print_header. run. rewrite missing_of_run.
  destruct (missing fs required_files); [done|]. reflexivity.
Qed.

(** [main] is the sequence of its stages: each stage starts in the
    directory the previous one left, the traces follow one another, and a
    stage that returns the failure value or raises ends the run. *)
Lemma main_run fs :
  main host fs =
  match missing fs required_files with
  | _ :: _ =>
      (Ok 1, fs,
       preflight_trace host fs ++
       [EPrint ("❌ Missing required files: "
                 +:+ py_repr_list (missing fs required_files))])
  | [] =>
      match clean_build fs with
      | (Raise e, fs1, t1) => (Raise e, fs1, preflight_trace host fs ++ t1)
      | (Ok _, fs1, t1) =>
          match check_compiler host fs1 with
          | (Raise e, fs2, t2) => (Raise e, fs2, preflight_trace host fs ++ t1 ++ t2)
          | (Ok compiler, fs2, t2) =>
              if negb (truthy compiler)
              then (Ok 1, fs2, preflight_trace host fs ++ t1 ++ t2)
              else
                match compile_project host (default "" compiler) fs2 with
                | (Raise e, fs3, t3) =>
                    (Raise e, fs3, preflight_trace host fs ++ t1 ++ t2 ++ t3)
                | (Ok exe, fs3, t3) =>
                    if negb (truthy exe)
                    then (Ok 1, fs3, preflight_trace host fs ++ t1 ++ t2 ++ t3)
                    else
                      match run_executable host (default "" exe) fs3 with
                      | (Raise e, fs4, t4) =>
                          (Raise e, fs4,
                           preflight_trace host fs ++ t1 ++ t2 ++ t3 ++ t4)
                      | (Ok _, fs4, t4) =>
                          (Ok 0, fs4,
                           preflight_trace host fs ++ t1 ++ t2 ++ t3 ++ t4)
                      end
                end
          end
      end
  end.
Proof.
  destruct (missing fs required_files) as [|m ms] eqn:Hm.
  2:{ rewrite main_missing by (rewrite Hm; done). by rewrite Hm. }
  unfold main, print_header, preflight_trace. run. rewrite missing_of_run, Hm.
  destruct (clean_build fs) as [[[[]|e] fs1] t1]; [|reflexivity].
  destruct (check_compiler host fs1) as [[[compiler|e] fs2] t2]; [|reflexivity].
  destruct (negb (truthy compiler)); [cbn; by rewrite app_nil_r|].
  destruct (compile_project host (default "" compiler) fs2)
    as [[[exe|e] fs3] t3]; [|reflexivity].
  destruct (negb (truthy exe)); [cbn; by rewrite app_nil_r|].
  destruct (run_executable host (default "" exe) fs3)
    as [[[[]|e] fs4] t4]; [|reflexivity].
  cbn. by rewrite app_nil_r.
Qed.

Lemma truthy_compiler c :
  List.find (found host) compilers = Some c -> truthy (Some c) = true.
Proof.
  intros Hfind. apply find_some in Hfind as [Hin _].
  unfold compilers in Hin. cbn in Hin. by destruct Hin as [<-|[<-|[]]].
Qed.

Lemma truthy_exe_name : truthy (Some (exe_name host)) = true.
Proof. unfold exe_name. by destruct (is_windows host). Qed.

(** The run up to the end of the Resolver. *)
Lemma main_resolved fs :
  missing fs required_files = [] ->
  outcome (clean_build fs) = Ok tt ->
  exists t,
    spawns t = [] /\
    match List.find (found host) compilers with
    | None => main host fs = (Ok 1, final_fs (clean_build fs), t)
    | Some c =>
        let fs1 := final_fs (clean_build fs) in
        match compile_project host c fs1 with
        | (Raise e, fs3, t3) => main host fs = (Raise e, fs3, t ++ t3)
        | (Ok None, fs3, t3) => main host fs = (Ok 1, fs3, t ++ t3)
        | (Ok (Some exe), fs3, t3) =>
            exe = exe_name host /\
            match run_executable host exe fs3 with
            | (Raise e, fs4, t4) => main host fs = (Raise e, fs4, t ++ t3 ++ t4)
            | (Ok _, fs4, t4) => main host fs = (Ok 0, fs4, t ++ t3 ++ t4)
            end
        end
    end.
Proof.
  intros Hm Hclean. rewrite main_run, Hm.
  pose proof (clean_build_loop_quiet files_to_remove fs) as [Hcs _].
  fold clean_build in Hcs.
  destruct (clean_build fs) as [[[[]|e] fs1] t1]; [|done].
  cbn [final_fs trace fst snd] in *.
  destruct (check_compiler_run host fs1) as (Ho & Hf & Hs & _).
  destruct (check_compiler host fs1) as [[rc fs1'] tc].
  cbn [outcome final_fs trace fst snd] in Ho, Hf, Hs. subst rc fs1'.
  exists (preflight_trace host fs ++ t1 ++ tc). split.
  { rewrite !spawns_app, Hcs, Hs. reflexivity. }
  destruct (List.find (found host) compilers) as [c|] eqn:Hfind; [|reflexivity].
  rewrite (truthy_compiler c Hfind). cbn [negb from_option id].
  pose proof (compile_project_run host c fs1) as Hb.
  destruct (compile_project host c fs1) as [[[[exe|]|e] fs3] t3].
  - assert (exe = exe_name host) as ->.
    { destruct (spawn host (build_cmd host c) fs1) as [[[rc out err| |m]|] fs2];
        [destruct (captured host out err) as [[o e]|reason];
         [destruct (rc =? 0)|]|..]; congruence. }
    rewrite truthy_exe_name. cbn [negb from_option id]. split; [done|].
    destruct (run_executable host (exe_name host) fs3) as [[[[]|e] fs4] t4];
      by rewrite <- !app_assoc.
  - cbn. by rewrite <- !app_assoc.
  - by rewrite <- !app_assoc.
Qed.

(** Outcome and child processes of a run, stage by stage. *)
Lemma main_cases fs :
  let r := main host fs in
  match missing fs required_files with
  | _ :: _ => outcome r = Ok 1 /\ spawns (trace r) = []
  | [] =>
      match clean_build fs with
      | (Raise e, _, _) => outcome r = Raise e /\ spawns (trace r) = []
      | (Ok _, fs1, _) =>
          match List.find (found host) compilers with
          | None => outcome r = Ok 1 /\ spawns (trace r) = []
          | Some c =>
              let build := (build_cmd host c, Some 30, fs1) in
              match spawn host (build_cmd host c) fs1 with
              | (Result (Completed rc out err), fs2) =>
                  if built host rc out err
                  then outcome r = Ok 0 /\
                       spawns (trace r) =
                       [build; (run_cmd host (exe_name host), None, fs2)]
                  else outcome r = Ok 1 /\ spawns (trace r) = [build]
              | (Result _, _) => outcome r = Ok 1 /\ spawns (trace r) = [build]
              | (Interrupt, _) =>
                  outcome r = Raise KeyboardInterrupt /\
                  spawns (trace r) = [build]
              end
          end
      end
  end.
Proof.
  cbv zeta.
  destruct (missing fs required_files) as [|m ms] eqn:Hm.
  2:{ rewrite main_missing by (rewrite Hm; done). split; [done|].
      cbn [trace snd]. by rewrite spawns_app. }
  pose proof (main_resolved fs Hm) as Hres.
  pose proof (main_run fs) as Hrun. rewrite Hm in Hrun.
  pose proof (clean_build_loop_quiet files_to_remove fs) as [Hcs _].
  fold clean_build in Hcs.
  destruct (clean_build fs) as [[[[]|e] fs1] t1]; cbn [trace snd] in Hcs.
  2:{ rewrite Hrun. split; [done|]. cbn [trace snd].
      by rewrite spawns_app, Hcs. }
  clear Hrun. destruct (Hres eq_refl) as (t & Hs & Hmain). clear Hres.
  cbn [final_fs fst snd] in Hmain.
  destruct (List.find (found host) compilers) as [c|].
  2:{ by rewrite Hmain. }
  cbv zeta in Hmain. rewrite compile_project_run in Hmain.
  destruct (spawn host (build_cmd host c) fs1) as [[[rc out err| |m]|] fs2].
  - unfold built. destruct (captured host out err) as [[o e]|reason].
    2:{ rewrite Hmain. split; [done|]. cbn [trace snd].
        rewrite !spawns_app, Hs. reflexivity. }
    destruct (rc =? 0).
    + destruct Hmain as [_ Hmain]. rewrite run_executable_run in Hmain.
      destruct (spawn host (run_cmd host (exe_name host)) fs2)
        as [[[rc' out' err'| |m']|] fs3]; [destruct (rc' =? 0)|..];
        rewrite Hmain; (split; [done|]); cbn [trace snd];
        rewrite !spawns_app, Hs; reflexivity.
    + rewrite Hmain. split; [done|]. cbn [trace snd].
      rewrite !spawns_app, Hs. reflexivity.
  - rewrite Hmain. split; [done|]. cbn [trace snd].
    rewrite !spawns_app, Hs. reflexivity.
  - rewrite Hmain. split; [done|]. cbn [trace snd].
    rewrite !spawns_app, Hs. reflexivity.
  - rewrite Hmain. split; [done|]. cbn [trace snd].
    rewrite !spawns_app, Hs. reflexivity.
Qed.

End Pipeline.

(** * The specification's claims *)

(** ** Preflight *)

Lemma In_missing fs files f :
  In f (missing fs files) <-> In f files /\ fs !! f = None.
Proof.
  unfold missing. rewrite filter_In. unfold path_exists.
  destruct (fs !! f); cbn; intuition congruence.
Qed.

(** C1.  When the working directory lacks at least one of main.cpp, User.h
    and RideManager.h, [main] returns 1 and leaves the directory as it was;
    the last line it prints reports the list of exactly the absent required
    names; and up to there it has probed no compiler, removed no file,
    spawned no child and tested the existence of required files only (so
    neither Clean nor the Resolver, Build or Run has started). *)
Theorem preflight_missing_sources (host : Host) (fs : FS) :
  (exists f, In f required_files /\ fs !! f = None) ->
  let r := main host fs in
  outcome r = Ok 1 /\
  final_fs r = fs /\
  last (trace r) =
    Some (EPrint ("❌ Missing required files: "
                   +:+ py_repr_list (missing fs required_files))) /\
  (forall f, In f (missing fs required_files) <->
             In f required_files /\ fs !! f = None) /\
  probes (trace r) = [] /\
  removals (trace r) = [] /\
  spawns (trace r) = [] /\
  (forall p b, In (EExists p b) (trace r) -> In p required_files).
Proof.
  intros (f & Hin & Habs). cbv zeta.
  assert (Hm : missing fs required_files <> []).
  { intros Hnil. assert (Hf : In f (missing fs required_files))
      by (by apply In_missing). by rewrite Hnil in Hf. }
  rewrite (main_missing host fs Hm).
  cbn [outcome final_fs trace fst snd].
  split; [done|]. split; [done|]. split; [by rewrite last_snoc|].
  split; [intros g; apply In_missing|].
  rewrite probes_app, removals_app, spawns_app.
  split; [done|]. split; [done|]. split; [done|].
  intros p b Hev. apply in_app_or in Hev as [Hev|[Hev|[]]]; [|done].
  unfold preflight_trace in Hev. apply in_app_or in Hev as [Hev|Hev].
  - destruct Hev as [?|[?|[?|[?|[?|[]]]]]]; discriminate.
  - apply list_elem_of_In, list_elem_of_fmap in Hev as (g & Heq & Hg).
    injection Heq as -> _. by apply list_elem_of_In.
Qed.

(** ** Build command *)

Lemma is_windows_spec (host : Host) :
  is_windows host = true <-> platform_system host = "Windows".
Proof. unfold is_windows. apply String.eqb_eq. Qed.

Lemma compile_project_spawned (host : Host) compiler fs :
  spawned (trace (compile_project host compiler fs)) = [build_cmd host compiler].
Proof.
  rewrite compile_project_run.
  destruct (spawn host (build_cmd host compiler) fs) as [[[rc out err| |m]|] fs'];
    [destruct (captured host out err) as [[o e]|reason];
       [destruct (rc =? 0)|]|..]; reflexivity.
Qed.

(** C2.  The command [compile_project] runs is the compiler name, then
    -std=c++17 -Wall -Wextra -O2 -I. main.cpp -o and the output name, which
    is rideeasy.exe when [platform.system()] is Windows and rideeasy
    otherwise; -static-libgcc -static-libstdc++ follow exactly when the
    platform is Windows and the compiler name contains g++. *)
Theorem build_command_tokens (host : Host) (compiler : string) (fs : FS) :
  let windows := platform_system host = "Windows" in
  let contains_gpp := exists pre post, compiler = pre +:+ "g++" +:+ post in
  let output := if decide windows then "rideeasy.exe" else "rideeasy" in
  let base :=
    [ compiler; "-std=c++17"; "-Wall"; "-Wextra"; "-O2"; "-I."; "main.cpp";
      "-o"; output ] in
  spawned (trace (compile_project host compiler fs)) = [build_cmd host compiler] /\
  (windows /\ contains_gpp ->
   build_cmd host compiler = base ++ ["-static-libgcc"; "-static-libstdc++"]) /\
  (~ (windows /\ contains_gpp) -> build_cmd host compiler = base).
Proof.
  cbv zeta. split; [apply compile_project_spawned|].
  unfold build_cmd, exe_name.
  pose proof (is_windows_spec host) as Hw.
  pose proof (str_in_spec "g++" compiler) as Hg.
  destruct (decide (platform_system host = "Windows")) as [Hwin|Hnwin].
  - rewrite (proj2 Hw Hwin). cbn [andb]. split.
    + intros [_ Hc]. by rewrite (proj2 Hg Hc).
    + intros Hn. destruct (str_in "g++" compiler); [|done].
      exfalso. apply Hn. split; [done|]. by apply Hg.
  - destruct (is_windows host); [exfalso; by apply Hnwin, Hw|].
    cbn [andb]. split; [|done]. by intros [Hwin _].
Qed.

(** C9.  The build command depends on the compiler name and on
    [platform.system()] only: two hosts that agree on the platform, whatever
    their search paths, directories and child processes, build and run the
    same token sequence for the same compiler. *)
Theorem build_command_deterministic
    (host1 host2 : Host) (compiler : string) (fs1 fs2 : FS) :
  platform_system host1 = platform_system host2 ->
  build_cmd host1 compiler = build_cmd host2 compiler /\
  spawned (trace (compile_project host1 compiler fs1)) =
  spawned (trace (compile_project host2 compiler fs2)).
Proof.
  intros Hp.
  assert (Hcmd : build_cmd host1 compiler = build_cmd host2 compiler).
  { unfold build_cmd, exe_name, is_windows. by rewrite Hp. }
  split; [done|]. by rewrite !compile_project_spawned, Hcmd.
Qed.

(** C10.  Among the arguments of the build command the only input file is
    main.cpp, which occurs once; User.h and RideManager.h, both required by
    Preflight, are not arguments; -I. is. *)
Theorem single_source_input (host : Host) (compiler : string) :
  let args := tail (build_cmd host compiler) in
  input_files args = ["main.cpp"] /\
  count_occ String.string_dec args "main.cpp" = 1%nat /\
  ~ In "User.h" args /\
  ~ In "RideManager.h" args /\
  In "-I." args /\
  In "User.h" required_files /\
  In "RideManager.h" required_files.
Proof.
  cbv zeta. unfold build_cmd, exe_name.
  destruct (is_windows host); cbn [andb]; [destruct (str_in "g++" compiler)|];
    cbn; intuition congruence.
Qed.

(** ** Clean *)

Lemma clean_build_returns fs :
  outcome (clean_build fs) = Ok tt ->
  forall f, In f files_to_remove -> final_fs (clean_build fs) !! f = None.
Proof.
  intros Hok f Hf. unfold clean_build in *.
  rewrite (clean_build_loop_returns _ _ Hok), del_all_lookup.
  by rewrite decide_True by (by apply list_elem_of_In).
Qed.

(** C7.  When [clean_build] returns, none of rideeasy.exe, rideeasy and
    a.out exists in the working directory, and it does return when each of
    these names is absent or a file that [os.remove] can delete.  In a run
    of [main], every call of [subprocess.run] with a build command is made
    in a working directory that [clean_build] has returned from and that
    holds none of the three names. *)
Theorem clean_before_compile (host : Host) (fs : FS) :
  files_to_remove = ["rideeasy.exe"; "rideeasy"; "a.out"] /\
  (outcome (clean_build fs) = Ok tt ->
   forall f, In f files_to_remove -> final_fs (clean_build fs) !! f = None) /\
  ((forall f, In f files_to_remove -> fs !! f = None \/ fs !! f = Some File) ->
   outcome (clean_build fs) = Ok tt) /\
  (forall c t cwd,
     In (ESpawn (build_cmd host c) t cwd) (trace (main host fs)) ->
     outcome (clean_build fs) = Ok tt /\
     cwd = final_fs (clean_build fs) /\
     forall f, In f files_to_remove -> cwd !! f = None).
Proof.
  split; [done|]. split; [apply clean_build_returns|]. split.
  { intros Hnd. apply clean_build_loop_ok. intros f Hf.
    by apply Hnd, list_elem_of_In. }
  intros c0 t cwd Hin. apply In_spawns in Hin.
  pose proof (main_cases host fs) as Hc. cbv zeta in Hc.
  pose proof (clean_build_returns fs) as Hret.
  destruct (missing fs required_files).
  2:{ destruct Hc as [_ Hs]. by rewrite Hs in Hin. }
  destruct (clean_build fs) as [[[[]|e] fs1] t1].
  2:{ destruct Hc as [_ Hs]. by rewrite Hs in Hin. }
  cbn [outcome final_fs fst snd] in *.
  assert (Hbuild : forall c fs2,
            In (build_cmd host c0, t, cwd)
               [(build_cmd host c, Some 30, fs1);
                (run_cmd host (exe_name host), None, fs2)] ->
            cwd = fs1).
  { intros c fs2 [Heq|[Heq|[]]]; [congruence|].
    exfalso. injection Heq as Hcmd _ _. apply (f_equal length) in Hcmd.
    unfold run_cmd, build_cmd in Hcmd.
    destruct (is_windows host); cbn [andb] in Hcmd;
      [destruct (str_in "g++" c0)|]; discriminate. }
  assert (Hgoal : cwd = fs1 ->
            Ok () = Ok () /\ cwd = fs1 /\
            forall f, In f files_to_remove -> cwd !! f = None).
  { intros ->. auto. }
  apply Hgoal.
  destruct (List.find (found host) compilers) as [c|].
  2:{ destruct Hc as [_ Hs]. by rewrite Hs in Hin. }
  cbv zeta in Hc.
  destruct (spawn host (build_cmd host c) fs1) as [[[rc out err| |m]|] fs2];
    [destruct (built host rc out err)|..]; destruct Hc as [_ Hs]; rewrite Hs in Hin;
    apply (Hbuild c fs2); cbn in *; tauto.
Qed.

(** C8.  In a working directory that holds none of the candidate artifact
    names, [clean_build] returns without an exception, leaves the directory
    as it is, and does nothing but test the three names; this is what a
    second [clean_build] does after a first one that returned. *)
Theorem clean_idempotent (fs : FS) :
  let nothing_to_do :=
    [EExists "rideeasy.exe" false; EExists "rideeasy" false; EExists "a.out" false] in
  ((forall f, In f files_to_remove -> fs !! f = None) ->
   clean_build fs = (Ok tt, fs, nothing_to_do)) /\
  (outcome (clean_build fs) = Ok tt ->
   let fs' := final_fs (clean_build fs) in
   clean_build fs' = (Ok tt, fs', nothing_to_do)).
Proof.
  assert (Habsent : forall s : FS,
            (forall f, In f files_to_remove -> s !! f = None) ->
            clean_build s =
            (Ok tt, s,
             [EExists "rideeasy.exe" false; EExists "rideeasy" false;
              EExists "a.out" false])).
  { intros s Hs. unfold clean_build. rewrite clean_build_loop_absent; [done|].
    intros f Hf. by apply Hs, list_elem_of_In. }
  cbv zeta. split; [apply Habsent|].
  intros Hok. apply Habsent. by apply clean_build_returns.
Qed.

(** ** Resolver *)

(** C5.  [check_compiler] returns the first of g++ and clang++ that
    [shutil.which] finds, probing g++ first and clang++ only if g++ is not
    found, and touching nothing;
    when neither is found it prints the no-compiler diagnostic and returns
    [None], and then [main] starts no child process at all and, once past
    Preflight and Clean, returns 1. *)
Theorem resolver_first_found (host : Host) (fs : FS) :
  let r := check_compiler host fs in
  outcome r = Ok (List.find (found host) ["g++"; "clang++"]) /\
  final_fs r = fs /\
  probes (trace r) =
    (if found host "g++" then ["g++"] else ["g++"; "clang++"]) /\
  spawns (trace r) = [] /\
  (List.find (found host) ["g++"; "clang++"] = None ->
   In (EPrint "❌ No C++ compiler found!") (trace r) /\
   spawns (trace (main host fs)) = [] /\
   (missing fs required_files = [] ->
    outcome (clean_build fs) = Ok tt ->
    outcome (main host fs) = Ok 1 /\
    In (EPrint "❌ No C++ compiler found!") (trace (main host fs)))).
Proof.
  cbv zeta. destruct (check_compiler_run host fs) as (Ho & Hf & Hs & _ & Hnone).
  change ["g++"; "clang++"] with compilers at 1 3.
  split; [done|]. split; [done|]. split.
  { unfold check_compiler, compilers, found. cbn [check_compiler_loop]. run.
    destruct (truthy (shutil_which host "g++")); [reflexivity|].
    destruct (truthy (shutil_which host "clang++")); reflexivity. }
  split; [done|].
  intros Hfind. split.
  { destruct (Hnone Hfind) as [t ->]. apply in_or_app. right. by left. }
  pose proof (main_cases host fs) as Hc. cbv zeta in Hc.
  pose proof (main_run host fs) as Hrun.
  rewrite Hfind in Hc.
  destruct (missing fs required_files); [|split; [tauto|done]].
  destruct (clean_build fs) as [[[[]|e] fs1] t1]; [|split; [tauto|done]].
  split; [tauto|]. intros _ _. split; [tauto|].
  destruct (check_compiler_run host fs1) as (Ho1 & _ & _ & _ & Hnone1).
  destruct (Hnone1 Hfind) as [t Ht].
  destruct (check_compiler host fs1) as [[rc fs2] t2].
  cbn [outcome trace fst snd] in Ho1, Ht. subst rc t2.
  rewrite Hfind in Hrun. cbn [truthy negb] in Hrun. rewrite Hrun.
  cbn [trace snd]. apply in_or_app. right. apply in_or_app. right.
  apply in_or_app. right. by left.
Qed.

(** ** Build and Run outcomes *)

Lemma missing_nil fs files :
  missing fs files = [] <-> forall f, In f files -> fs !! f <> None.
Proof.
  split.
  - intros Hnil f Hf Habs.
    assert (Hin : In f (missing fs files)) by (by apply In_missing).
    by rewrite Hnil in Hin.
  - intros Hall. destruct (missing fs files) as [|f l] eqn:Hm; [done|].
    assert (Hin : In f (missing fs files)) by (rewrite Hm; by left).
    apply In_missing in Hin as [Hf Habs]. by destruct (Hall f Hf).
Qed.


(** C6.  However the wait for the artifact ends, [run_executable] returns
    normally: a non-zero return code is reported with that code, the
    operator's interrupt with the interrupted line, a failure to launch
    with its cause; and a [main] that has got as far as running the
    artifact returns 0. *)
Theorem run_outcomes
    (host : Host) (exe : string) (fs : FS) (w : wait_outcome) (fs' : FS) :
  spawn host (run_cmd host exe) fs = (w, fs') ->
  let r := run_executable host exe fs in
  outcome r = Ok tt /\
  spawns (trace r) = [(run_cmd host exe, None, fs)] /\
  match w with
  | Result (Completed rc _ _) =>
      rc <> 0 ->
      last (trace r) =
      Some (EPrint ("❌ Runtime error (exit code " +:+ pretty rc +:+ ")"))
  | Interrupt =>
      last (trace r) = Some (EPrint (NL +:+ "⚠️ Program interrupted by user"))
  | Result (SpawnFailed m) =>
      last (trace r) = Some (EPrint ("❌ Execution error: " +:+ m))
  | Result TimedOut => True
  end /\
  (forall fs0 c,
     missing fs0 required_files = [] ->
     outcome (clean_build fs0) = Ok tt ->
     List.find (found host) compilers = Some c ->
     outcome (compile_project host c (final_fs (clean_build fs0))) = Ok (Some exe) ->
     final_fs (compile_project host c (final_fs (clean_build fs0))) = fs ->
     outcome (main host fs0) = Ok 0 /\
     exists t, trace (main host fs0) = t ++ trace r).
Proof.
  intros Hsp. cbv zeta. split; [|split; [|split]].
  - rewrite run_executable_run, Hsp.
    destruct w as [[rc out err| |m]|]; [destruct (rc =? 0)|..]; reflexivity.
  - rewrite run_executable_run, Hsp.
    destruct w as [[rc out err| |m]|]; [destruct (rc =? 0)|..]; reflexivity.
  - rewrite run_executable_run, Hsp.
    destruct w as [[rc out err| |m]|]; [|done|..].
    + intros Hrc. apply Z.eqb_neq in Hrc. rewrite Hrc.
      cbn [trace snd]. by rewrite last_snoc.
    + cbn [trace snd]. by rewrite last_snoc.
    + cbn [trace snd]. by rewrite last_snoc.
  - intros fs0 c Hm Hclean Hfind Hb Hfs.
    destruct (main_resolved host fs0 Hm Hclean) as (t & Hs & Hmain).
    rewrite Hfind in Hmain. cbv zeta in Hmain.
    destruct (compile_project host c (final_fs (clean_build fs0)))
      as [[[[exe'|]|e] fs3] t3]; [|done..].
    cbn [outcome final_fs fst snd] in Hb, Hfs. injection Hb as ->. subst fs3.
    destruct Hmain as [_ Hmain].
    pose proof (run_executable_run host exe fs) as Hr. rewrite Hsp in Hr.
    destruct (run_executable host exe fs) as [[[[]|e] fs4] t4].
    + rewrite Hmain. split; [done|]. exists (t ++ t3).
      cbn [trace snd]. by rewrite <- app_assoc.
    + exfalso.
      destruct w as [[rc out err| |m]|]; [destruct (rc =? 0)|..]; discriminate.
Qed.



(** * The claims on concrete runs *)


Lemma preflight_missing_sources_run :
  outcome (main linux_box partial_checkout) = Ok 1 /\
  missing partial_checkout required_files = ["User.h"; "RideManager.h"].
Proof.
  split; [|reflexivity].
  refine (proj1 (preflight_missing_sources linux_box partial_checkout _)).
  exists "User.h". split; [right; by left | reflexivity].
Defined.

Lemma build_command_tokens_run :
  build_cmd windows_box "clang++" =
    [ "clang++"; "-std=c++17"; "-Wall"; "-Wextra"; "-O2"; "-I."; "main.cpp";
      "-o"; "rideeasy.exe"; "-static-libgcc"; "-static-libstdc++" ] /\
  build_cmd linux_box "g++" =
    [ "g++"; "-std=c++17"; "-Wall"; "-Wextra"; "-O2"; "-I."; "main.cpp";
      "-o"; "rideeasy" ].
Proof.
  destruct (build_command_tokens windows_box "clang++" ∅) as (_ & Hstatic & _).
  destruct (build_command_tokens linux_box "g++" ∅) as (_ & _ & Hplain).
  split.
  - apply Hstatic. split; [reflexivity|]. by exists "clan", "".
  - apply Hplain. intros [Hw _]. discriminate Hw.
Defined.

Lemma build_command_deterministic_run :
  build_cmd linux_box "g++" =
  build_cmd
    (mkHost "/tmp" "Linux" (fun _ => None) (fun _ fs => (Interrupt, ∅))
       ascii_codec)
    "g++".
Proof.
  refine (proj1 (build_command_deterministic linux_box _ "g++" checkout ∅ _)).
  reflexivity.
Defined.




Lemma resolver_first_found_run :
  outcome (check_compiler windows_box checkout) = Ok (Some "clang++") /\
  outcome (main bare_box checkout) = Ok 1 /\
  spawns (trace (main bare_box checkout)) = [].
Proof.
  split.
  - exact (proj1 (resolver_first_found windows_box checkout)).
  - destruct (resolver_first_found bare_box checkout) as (_ & _ & _ & _ & H).
    destruct (H eq_refl) as (_ & Hs & Hm).
    split; [apply (Hm eq_refl eq_refl) | exact Hs].
Defined.

Lemma run_outcomes_run :
  outcome (run_executable linux_box "rideeasy" checkout) = Ok tt /\
  last (trace (run_executable linux_box "rideeasy" checkout)) =
    Some (EPrint "❌ Runtime error (exit code 3)") /\
  outcome (run_executable bare_box "rideeasy" checkout) = Ok tt /\
  last (trace (run_executable bare_box "rideeasy" checkout)) =
    Some (EPrint (NL +:+ "⚠️ Program interrupted by user")).
Proof.
  destruct (run_outcomes linux_box "rideeasy" checkout
              (Result (Completed 3 "" "")) checkout eq_refl)
    as (Ho & _ & Hl & _).
  destruct (run_outcomes bare_box "rideeasy" checkout Interrupt checkout eq_refl)
    as (Ho' & _ & Hl' & _).
  split; [exact Ho|]. split; [apply Hl; discriminate|].
  split; [exact Ho' | exact Hl'].
Defined.

Lemma stale_checkout_removable f :
  In f files_to_remove ->
  stale_checkout !! f = None \/ stale_checkout !! f = Some File.
Proof. intros [<-|[<-|[<-|[]]]]; vm_compute; auto. Defined.

Lemma clean_before_compile_run :
  outcome (clean_build stale_checkout) = Ok tt /\
  final_fs (clean_build stale_checkout) !! "rideeasy" = None /\
  final_fs (clean_build stale_checkout) !! "a.out" = None.
Proof.
  destruct (clean_before_compile linux_box stale_checkout)
    as (_ & Hgone & Hret & _).
  pose (Hok := Hret stale_checkout_removable).
  split; [exact Hok|].
  split; apply (Hgone Hok); [right; by left | right; right; by left].
Defined.

Lemma clean_idempotent_run :
  clean_build checkout =
    (Ok tt, checkout,
     [EExists "rideeasy.exe" false; EExists "rideeasy" false; EExists "a.out" false]) /\
  clean_build (final_fs (clean_build stale_checkout)) =
    (Ok tt, final_fs (clean_build stale_checkout),
     [EExists "rideeasy.exe" false; EExists "rideeasy" false; EExists "a.out" false]).
Proof.
  split.
  - refine (proj1 (clean_idempotent checkout) _).
    intros f [<-|[<-|[<-|[]]]]; reflexivity.
  - exact (proj2 (clean_idempotent stale_checkout) eq_refl).
Defined.

(** * Further properties of run.py *)

Arguments printed : simpl never.

Lemma removals_cons ev t :
  removals (ev :: t) =
  match removal_of ev with Some p => p :: removals t | None => removals t end.
Proof. reflexivity. Qed.

Lemma printed_cons ev t :
  printed (ev :: t) =
  match print_of ev with Some l => l :: printed t | None => printed t end.
Proof. reflexivity. Qed.

Lemma printed_app t1 t2 : printed (t1 ++ t2) = printed t1 ++ printed t2.
Proof. apply omap_app. Qed.

(** ** Clean: what it touches *)

(** The loop only ever deletes: a path ends as it began, or began as a file
    and is gone. *)
Lemma clean_build_loop_only_deletes files fs k :
  final_fs (clean_build_loop files fs) !! k = fs !! k \/
  (fs !! k = Some File /\ final_fs (clean_build_loop files fs) !! k = None).
Proof.
  revert fs. induction files as [|f rest IH]; intros fs; [by left|].
  rewrite clean_build_loop_step. destruct (fs !! f) as [[| |]|] eqn:E.
  - specialize (IH (delete f fs)).
    destruct (clean_build_loop rest (delete f fs)) as [[r fs'] t].
    cbn [final_fs fst snd] in *. destruct (decide (k = f)) as [->|Hne].
    + right. split; [done|]. rewrite lookup_delete_eq in IH. by destruct IH as [?|[? ?]].
    + rewrite lookup_delete_ne in IH by done. exact IH.
  - by left.
  - by left.
  - specialize (IH fs). destruct (clean_build_loop rest fs) as [[r fs'] t].
    exact IH.
Qed.

Lemma clean_build_loop_frame files fs k :
  k ∉ files -> final_fs (clean_build_loop files fs) !! k = fs !! k.
Proof.
  revert fs. induction files as [|f rest IH]; intros fs Hk; [done|].
  apply not_elem_of_cons in Hk as [Hne Hk].
  rewrite clean_build_loop_step. destruct (fs !! f) as [[| |]|] eqn:E.
  - specialize (IH (delete f fs) Hk).
    destruct (clean_build_loop rest (delete f fs)) as [[r fs'] t].
    cbn [final_fs fst snd] in *. by rewrite IH, lookup_delete_ne.
  - done.
  - done.
  - specialize (IH fs Hk). destruct (clean_build_loop rest fs) as [[r fs'] t].
    exact IH.
Qed.

Lemma clean_build_loop_removals files fs p :
  In p (removals (trace (clean_build_loop files fs))) ->
  p ∈ files /\ fs !! p = Some File.
Proof.
  revert fs. induction files as [|f rest IH]; intros fs; [done|].
  rewrite clean_build_loop_step. destruct (fs !! f) as [[| |]|] eqn:E.
  - specialize (IH (delete f fs)).
    destruct (clean_build_loop rest (delete f fs)) as [[r fs'] t].
    cbn [trace snd] in *. rewrite !removals_cons. cbn [removal_of].
    intros [<-|Hin].
    + split; [apply elem_of_cons; by left | done].
    + destruct (IH Hin) as [Hp Hfile].
      apply lookup_delete_Some in Hfile as [_ Hfile].
      split; [apply elem_of_cons; by right | done].
  - cbn [trace snd]. rewrite removals_cons. cbn [removal_of]. intros [].
  - cbn [trace snd]. rewrite removals_cons. cbn [removal_of]. intros [].
  - specialize (IH fs). destruct (clean_build_loop rest fs) as [[r fs'] t].
    cbn [trace snd] in *. rewrite removals_cons. cbn [removal_of].
    intros Hin. destruct (IH Hin) as [Hp Hfile].
    split; [apply elem_of_cons; by right | done].
Qed.

(** X1.  Whether it returns or raises, [clean_build] leaves every path
    other than rideeasy.exe, rideeasy and a.out exactly as it was, changes a
    path only by deleting a file, and removes nothing but candidate names
    that were files. *)
Theorem clean_touches_only_artifacts (fs : FS) :
  (forall k, ~ In k files_to_remove ->
             final_fs (clean_build fs) !! k = fs !! k) /\
  (forall k, final_fs (clean_build fs) !! k = fs !! k \/
             (fs !! k = Some File /\ final_fs (clean_build fs) !! k = None)) /\
  (forall p, In p (removals (trace (clean_build fs))) ->
             In p files_to_remove /\ fs !! p = Some File).
Proof.
  split; [|split].
  - intros k Hk. apply clean_build_loop_frame. by rewrite list_elem_of_In.
  - intros k. apply clean_build_loop_only_deletes.
  - intros p Hp. apply clean_build_loop_removals in Hp as [Hin Hfile].
    by apply list_elem_of_In in Hin.
Qed.

(** ** Clean: what it reports, and when it fails *)

Lemma clean_build_loop_reports files fs :
  printed (trace (clean_build_loop files fs)) =
  (fun f => "🧹 Cleaned: " +:+ f) <$> removals (trace (clean_build_loop files fs)).
Proof.
  revert fs. induction files as [|f rest IH]; intros fs; [done|].
  rewrite clean_build_loop_step. destruct (fs !! f) as [[| |]|] eqn:E.
  - specialize (IH (delete f fs)).
    destruct (clean_build_loop rest (delete f fs)) as [[r fs'] t].
    cbn [trace snd] in *. rewrite !printed_cons, !removals_cons.
    cbn [print_of removal_of]. rewrite fmap_cons. by rewrite IH.
  - done.
  - done.
  - specialize (IH fs). destruct (clean_build_loop rest fs) as [[r fs'] t].
    cbn [trace snd] in *. by rewrite printed_cons, removals_cons.
Qed.

Lemma path_exists_delete fs f g :
  g <> f -> path_exists (delete f fs) g = path_exists fs g.
Proof. intros Hne. unfold path_exists. by rewrite lookup_delete_ne. Qed.

Lemma clean_build_loop_removed files fs :
  NoDup files ->
  outcome (clean_build_loop files fs) = Ok tt ->
  removals (trace (clean_build_loop files fs)) = List.filter (path_exists fs) files.
Proof.
  revert fs. induction files as [|f rest IH]; intros fs Hnd; [done|].
  apply NoDup_cons in Hnd as [Hf Hnd].
  rewrite clean_build_loop_step. cbn [List.filter]. unfold path_exists at 1.
  destruct (fs !! f) as [[| |]|] eqn:E.
  - specialize (IH (delete f fs) Hnd).
    destruct (clean_build_loop rest (delete f fs)) as [[r fs'] t].
    cbn [outcome trace fst snd] in *. intros Hok.
    rewrite !removals_cons. cbn [removal_of]. rewrite (IH Hok). f_equal.
    apply filter_ext_in. intros g Hg. apply path_exists_delete.
    intros ->. by apply Hf, list_elem_of_In.
  - done.
  - done.
  - specialize (IH fs Hnd). destruct (clean_build_loop rest fs) as [[r fs'] t].
    cbn [outcome trace fst snd] in *. intros Hok.
    rewrite removals_cons. cbn [removal_of]. by apply IH.
Qed.

(** X2.  [clean_build] prints one "Cleaned" line per file it removes, in
    the order of the removals, and nothing else; when it returns, the files
    it removed are exactly the candidate names that existed, in the order
    rideeasy.exe, rideeasy, a.out. *)
Theorem clean_reports_each_removal (fs : FS) :
  printed (trace (clean_build fs)) =
    List.map (fun f => "🧹 Cleaned: " +:+ f) (removals (trace (clean_build fs))) /\
  (outcome (clean_build fs) = Ok tt ->
   removals (trace (clean_build fs)) =
   List.filter (path_exists fs) ["rideeasy.exe"; "rideeasy"; "a.out"]).
Proof.
  split; [apply clean_build_loop_reports|].
  apply clean_build_loop_removed. unfold files_to_remove.
  repeat (apply NoDup_cons; split; [rewrite ?elem_of_cons, elem_of_nil; intuition discriminate|]).
  apply NoDup_nil_2.
Qed.

Lemma clean_build_loop_dir files fs f :
  f ∈ files -> fs !! f = Some Dir ->
  exists m, outcome (clean_build_loop files fs) = Raise (OSError m).
Proof.
  revert fs. induction files as [|f0 rest IH]; intros fs Hf Hdir.
  { by apply elem_of_nil in Hf. }
  rewrite clean_build_loop_step. apply elem_of_cons in Hf.
  destruct (fs !! f0) as [[| |]|] eqn:E.
  - destruct Hf as [->|Hf]; [congruence|].
    assert (Hne : f <> f0) by congruence.
    destruct (IH (delete f0 fs) Hf) as [m Hm]; [by rewrite lookup_delete_ne|].
    destruct (clean_build_loop rest (delete f0 fs)) as [[r fs'] t]. by exists m.
  - by eexists.
  - by eexists.
  - destruct Hf as [->|Hf]; [congruence|].
    destruct (IH fs Hf Hdir) as [m Hm].
    destruct (clean_build_loop rest fs) as [[r fs'] t]. by exists m.
Qed.

(** X3.  If one of rideeasy.exe, rideeasy and a.out is a directory,
    [clean_build] raises an [OSError] and the directory stays; a [main]
    that has passed Preflight then ends with that exception, having probed
    no compiler and started no child. *)
Theorem clean_raises_on_directory (host : Host) (fs : FS) (f : string) :
  In f files_to_remove ->
  fs !! f = Some Dir ->
  (exists m, outcome (clean_build fs) = Raise (OSError m)) /\
  final_fs (clean_build fs) !! f = Some Dir /\
  (missing fs required_files = [] ->
   (exists m, outcome (main host fs) = Raise (OSError m)) /\
   final_fs (main host fs) !! f = Some Dir /\
   probes (trace (main host fs)) = [] /\
   spawns (trace (main host fs)) = []).
Proof.
  intros Hf Hdir. apply list_elem_of_In in Hf.
  destruct (clean_build_loop_dir files_to_remove fs f Hf Hdir) as [m Hm].
  fold clean_build in Hm.
  assert (Hstay : final_fs (clean_build fs) !! f = Some Dir).
  { unfold clean_build.
    destruct (clean_build_loop_only_deletes files_to_remove fs f) as [Hk|[Hk _]];
      [by rewrite Hk | congruence]. }
  split; [by exists m|]. split; [done|]. intros Hmiss.
  pose proof (main_run host fs) as Hrun. rewrite Hmiss in Hrun.
  pose proof (clean_build_loop_quiet files_to_remove fs) as [Hs Hp].
  fold clean_build in Hs, Hp.
  destruct (clean_build fs) as [[[[]|e] fs1] t1]; [done|].
  cbn [outcome final_fs trace fst snd] in *. injection Hm as ->.
  rewrite Hrun. cbn [outcome final_fs trace fst snd].
  split; [by exists m|]. split; [done|].
  by rewrite probes_app, spawns_app, Hs, Hp.
Qed.

Lemma clean_build_loop_locked files fs f :
  f ∈ files -> fs !! f = Some Locked ->
  exists m, outcome (clean_build_loop files fs) = Raise (OSError m).
Proof.
  revert fs. induction files as [|f0 rest IH]; intros fs Hf Hlock.
  { by apply elem_of_nil in Hf. }
  rewrite clean_build_loop_step. apply elem_of_cons in Hf.
  destruct (fs !! f0) as [[| |]|] eqn:E.
  - destruct Hf as [->|Hf]; [congruence|].
    assert (Hne : f <> f0) by congruence.
    destruct (IH (delete f0 fs) Hf) as [m Hm]; [by rewrite lookup_delete_ne|].
    destruct (clean_build_loop rest (delete f0 fs)) as [[r fs'] t]. by exists m.
  - by eexists.
  - by eexists.
  - destruct Hf as [->|Hf]; [congruence|].
    destruct (IH fs Hf Hlock) as [m Hm].
    destruct (clean_build_loop rest fs) as [[r fs'] t]. by exists m.
Qed.

(** X17.  If one of rideeasy.exe, rideeasy and a.out is a file that
    [os.remove] may not delete, [clean_build] raises an [OSError] and the
    file stays; a [main] that has passed Preflight then ends with that
    exception, having probed no compiler and called [subprocess.run] for
    nothing. *)
Theorem clean_raises_on_undeletable_file (host : Host) (fs : FS) (f : string) :
  In f files_to_remove ->
  fs !! f = Some Locked ->
  (exists m, outcome (clean_build fs) = Raise (OSError m)) /\
  final_fs (clean_build fs) !! f = Some Locked /\
  (missing fs required_files = [] ->
   (exists m, outcome (main host fs) = Raise (OSError m)) /\
   final_fs (main host fs) !! f = Some Locked /\
   probes (trace (main host fs)) = [] /\
   spawns (trace (main host fs)) = []).
Proof.
  intros Hf Hlock. apply list_elem_of_In in Hf.
  destruct (clean_build_loop_locked files_to_remove fs f Hf Hlock) as [m Hm].
  fold clean_build in Hm.
  assert (Hstay : final_fs (clean_build fs) !! f = Some Locked).
  { unfold clean_build.
    destruct (clean_build_loop_only_deletes files_to_remove fs f) as [Hk|[Hk _]];
      [by rewrite Hk | congruence]. }
  split; [by exists m|]. split; [done|]. intros Hmiss.
  pose proof (main_run host fs) as Hrun. rewrite Hmiss in Hrun.
  pose proof (clean_build_loop_quiet files_to_remove fs) as [Hs Hp].
  fold clean_build in Hs, Hp.
  destruct (clean_build fs) as [[[[]|e] fs1] t1]; [done|].
  cbn [outcome final_fs trace fst snd] in *. injection Hm as ->.
  rewrite Hrun. cbn [outcome final_fs trace fst snd].
  split; [by exists m|]. split; [done|].
  by rewrite probes_app, spawns_app, Hs, Hp.
Qed.

(** ** Build: what comes back *)

(** X4.  A build that returns 0 with output that decodes prints three
    lines only: the compiling line, the command joined by spaces, and the
    success line.  Whatever the compiler wrote to stdout and stderr (its
    warnings) is not printed, and the working directory is the one the
    compiler left. *)
Theorem build_success_discards_output
    (host : Host) (compiler : string) (fs : FS)
    (out err o e : string) (fs' : FS) :
  spawn host (build_cmd host compiler) fs = (Result (Completed 0 out err), fs') ->
  captured host out err = inl (o, e) ->
  let b := compile_project host compiler fs in
  printed (trace b) =
    [ NL +:+ "🔨 Compiling with " +:+ compiler +:+ "...";
      "Command: " +:+ join " " (build_cmd host compiler);
      "✅ Compilation successful!" ] /\
  final_fs b = fs'.
Proof.
  intros Hsp Hcap. cbv zeta. rewrite compile_project_run, Hsp, Hcap. done.
Qed.

(** X5.  However the build ends, the second line [compile_project]
    prints is the command it then runs, its tokens joined by single spaces,
    and that command is the only child it starts. *)
Theorem command_line_shows_command_run
    (host : Host) (compiler : string) (fs : FS) :
  let b := compile_project host compiler fs in
  exists cmd,
    spawned (trace b) = [cmd] /\
    printed (trace b) !! 1%nat = Some ("Command: " +:+ join " " cmd) /\
    hd_error cmd = Some compiler.
Proof.
  cbv zeta. exists (build_cmd host compiler). rewrite compile_project_run.
  split; [|split].
  - destruct (spawn host (build_cmd host compiler) fs) as [[[rc out err| |m]|] fs'];
      [destruct (captured host out err) as [[o e]|reason];
       [destruct (rc =? 0)|]|..]; reflexivity.
  - destruct (spawn host (build_cmd host compiler) fs) as [[[rc out err| |m]|] fs'];
      [destruct (captured host out err) as [[o e]|reason];
       [destruct (rc =? 0)|]|..]; reflexivity.
  - unfold build_cmd. by destruct (is_windows host && str_in "g++" compiler).
Qed.

(** X6.  [compile_project] returns a name only when the compiler's return
    code was 0; the name is then the platform's artifact name, rideeasy.exe
    or rideeasy, and never the empty string. *)
Theorem compile_returns_name_only_on_zero
    (host : Host) (compiler : string) (fs : FS) (e : string) :
  outcome (compile_project host compiler fs) = Ok (Some e) ->
  e = exe_name host /\
  (e = "rideeasy.exe" \/ e = "rideeasy") /\
  exists out err fs',
    spawn host (build_cmd host compiler) fs = (Result (Completed 0 out err), fs').
Proof.
  rewrite compile_project_run.
  destruct (spawn host (build_cmd host compiler) fs) as [[[rc out err| |m]|] fs'];
    [|done..].
  destruct (captured host out err) as [[o' e']|reason]; [|done].
  destruct (rc =? 0) eqn:Hrc; [|done]. apply Z.eqb_eq in Hrc as ->.
  intros [= <-]. split; [done|]. split.
  - unfold exe_name. destruct (is_windows host); [by left | by right].
  - by exists out, err, fs'.
Qed.

(** X7.  An operator interrupt while the compiler runs is not caught:
    [compile_project] raises [KeyboardInterrupt] right after the spawn,
    printing no diagnostic, and a [main] that got that far ends with the
    same exception instead of an exit code, with the compiler as its only
    child. *)
Theorem build_interrupt_escapes
    (host : Host) (compiler : string) (fs fs' : FS) :
  spawn host (build_cmd host compiler) fs = (Interrupt, fs') ->
  let b := compile_project host compiler fs in
  outcome b = Raise KeyboardInterrupt /\
  last (trace b) = Some (ESpawn (build_cmd host compiler) (Some 30) fs) /\
  (forall fs0,
     missing fs0 required_files = [] ->
     outcome (clean_build fs0) = Ok tt ->
     final_fs (clean_build fs0) = fs ->
     List.find (found host) compilers = Some compiler ->
     outcome (main host fs0) = Raise KeyboardInterrupt /\
     spawned (trace (main host fs0)) = [build_cmd host compiler]).
Proof.
  intros Hsp. cbv zeta.
  pose proof (compile_project_run host compiler fs) as Hb. rewrite Hsp in Hb.
  split; [by rewrite Hb|]. split; [by rewrite Hb|].
  intros fs0 Hm Hclean Hfs Hfind.
  destruct (main_resolved host fs0 Hm Hclean) as (t & Hs & Hmain).
  rewrite Hfind in Hmain. cbv zeta in Hmain. rewrite Hfs, Hb in Hmain.
  rewrite Hmain. split; [done|]. cbn [trace snd]. unfold spawned.
  by rewrite spawns_app, Hs.
Qed.

(** X8.  On Windows the static-linking flags are appended for every
    compiler the Resolver can return, clang++ included, because its name
    contains g++; on any other platform they are appended for none. *)
Theorem static_flags_for_resolved_compiler
    (host : Host) (fs : FS) (c : string) :
  outcome (check_compiler host fs) = Ok (Some c) ->
  (c = "g++" \/ c = "clang++") /\
  build_cmd host c =
    [ c; "-std=c++17"; "-Wall"; "-Wextra"; "-O2"; "-I."; "main.cpp"; "-o" ] ++
    (if decide (platform_system host = "Windows")
     then ["rideeasy.exe"; "-static-libgcc"; "-static-libstdc++"]
     else ["rideeasy"]).
Proof.
  intros Hc. destruct (check_compiler_run host fs) as (Ho & _).
  assert (Hfind : List.find (found host) compilers = Some c) by congruence.
  apply find_some in Hfind as [Hin _]. unfold compilers in Hin.
  assert (Hgc : c = "g++" \/ c = "clang++").
  { destruct Hin as [<-|[<-|[]]]; [by left | by right]. }
  split; [done|]. unfold build_cmd, exe_name.
  pose proof (is_windows_spec host) as Hw.
  destruct (decide (platform_system host = "Windows")) as [Hwin|Hnwin].
  - rewrite (proj2 Hw Hwin). by destruct Hgc as [->| ->].
  - destruct (is_windows host); [exfalso; by apply Hnwin, Hw | done].
Qed.

(** ** Run: what is reported *)

(** X9.  [run_executable] ends with the success line exactly when the
    artifact returned 0; in every case the working directory is the one the
    wait left behind. *)
Theorem run_success_line_iff_zero (host : Host) (exe : string) (fs : FS) :
  let r := run_executable host exe fs in
  (last (trace r) = Some (EPrint "✅ Program executed successfully!") <->
   exists out err fs',
     spawn host (run_cmd host exe) fs = (Result (Completed 0 out err), fs')) /\
  final_fs r = (spawn host (run_cmd host exe) fs).2.
Proof.
  cbv zeta. rewrite run_executable_run.
  destruct (spawn host (run_cmd host exe) fs) as [[[rc out err| |m]|] fs'].
  - destruct (rc =? 0) eqn:Hrc; cbn [trace final_fs fst snd].
    + apply Z.eqb_eq in Hrc as ->. split; [|done].
      split; [intros _; by exists out, err, fs' | intros _; reflexivity].
    + apply Z.eqb_neq in Hrc. rewrite last_snoc. split; [|done]. split.
      * intros H. injection H as H. cbn [String.append] in H. discriminate H.
      * intros (out' & err' & fs'' & [= -> _ _ _]). done.
  - cbn [trace final_fs fst snd]. rewrite last_snoc. split; [|done]. split.
    + intros H. injection H as H. cbn [String.append] in H. discriminate H.
    + intros (out' & err' & fs'' & [=]).
  - cbn [trace final_fs fst snd]. rewrite last_snoc. split; [|done]. split.
    + intros H. injection H as H. cbn [String.append] in H. discriminate H.
    + intros (out' & err' & fs'' & [=]).
  - cbn [trace final_fs fst snd]. rewrite last_snoc. split; [|done]. split.
    + intros H. injection H as H. cbn [String.append] in H. discriminate H.
    + intros (out' & err' & fs'' & [=]).
Qed.

(** ** The pipeline as a whole *)


(** X11.  A run of [main] calls [subprocess.run] at most twice.  It calls
    it twice, with the build command and then with the artifact command,
    exactly when it returns 0; the first call of any run has a build
    command and the 30 s timeout, the second has the artifact command and no
    timeout.  A call counts whether or not a child could be launched. *)
Theorem run_attempted_iff_exit_zero (host : Host) (fs : FS) :
  (outcome (main host fs) = Ok 0 <->
   exists b r, spawns (trace (main host fs)) = [b; r]) /\
  (length (spawns (trace (main host fs))) <= 2)%nat /\
  (forall cmd t cwd,
     spawns (trace (main host fs)) !! 0%nat = Some (cmd, t, cwd) ->
     t = Some 30 /\ exists c, cmd = build_cmd host c) /\
  (forall cmd t cwd,
     spawns (trace (main host fs)) !! 1%nat = Some (cmd, t, cwd) ->
     t = None /\ cmd = run_cmd host (exe_name host)).
Proof.
  pose proof (main_cases host fs) as Hc. cbv zeta in Hc.
  assert (Hnone : forall o : result Z,
            o <> Ok 0 ->
            outcome (main host fs) = o /\ spawns (trace (main host fs)) = [] ->
            (outcome (main host fs) = Ok 0 <->
             exists b r, spawns (trace (main host fs)) = [b; r]) /\
            (length (spawns (trace (main host fs))) <= 2)%nat /\
            (forall cmd t cwd,
               spawns (trace (main host fs)) !! 0%nat = Some (cmd, t, cwd) ->
               t = Some 30 /\ exists c, cmd = build_cmd host c) /\
            (forall cmd t cwd,
               spawns (trace (main host fs)) !! 1%nat = Some (cmd, t, cwd) ->
               t = None /\ cmd = run_cmd host (exe_name host))).
  { intros o Ho [-> ->]. split; [|split; [cbn; lia|split; intros ? ? ? [=]]].
    split; [done|]. intros (b & r & [=]). }
  assert (Hone : forall (o : result Z) c fs1,
            o <> Ok 0 ->
            outcome (main host fs) = o /\
            spawns (trace (main host fs)) = [(build_cmd host c, Some 30, fs1)] ->
            (outcome (main host fs) = Ok 0 <->
             exists b r, spawns (trace (main host fs)) = [b; r]) /\
            (length (spawns (trace (main host fs))) <= 2)%nat /\
            (forall cmd t cwd,
               spawns (trace (main host fs)) !! 0%nat = Some (cmd, t, cwd) ->
               t = Some 30 /\ exists c, cmd = build_cmd host c) /\
            (forall cmd t cwd,
               spawns (trace (main host fs)) !! 1%nat = Some (cmd, t, cwd) ->
               t = None /\ cmd = run_cmd host (exe_name host))).
  { intros o c fs1 Ho [-> ->]. split; [|split; [cbn; lia|split]].
    - split; [done|]. intros (b & r & [=]).
    - intros ? ? ? [= <- <- <-]. split; [done|]. by exists c.
    - intros ? ? ? [=]. }
  destruct (missing fs required_files) as [|g l]; [|by apply (Hnone (Ok 1))].
  destruct (clean_build fs) as [[[[]|e] fs1] t1]; [|by apply (Hnone (Raise e))].
  destruct (List.find (found host) compilers) as [c|]; [|by apply (Hnone (Ok 1))].
  cbv zeta in Hc.
  destruct (spawn host (build_cmd host c) fs1) as [[[rc out err| |m]|] fs2];
    [destruct (built host rc out err)|..];
    try (by apply (Hone (Ok 1) c fs1));
    try (by apply (Hone (Raise KeyboardInterrupt) c fs1)).
  destruct Hc as [-> ->]. split; [|split; [cbn; lia|split]].
  - split; [intros _; by eexists _, _ | done].
  - intros ? ? ? [= <- <- <-]. split; [done|]. by exists c.
  - intros ? ? ? [= <- <- <-]. done.
Qed.

(** X12.  What [main] runs is what it told the compiler to write: when a
    run starts two children, the token after -o in the first command is the
    file the second command names, as such on Windows and behind ./
    elsewhere, with no further arguments. *)
Theorem run_target_is_build_output (host : Host) (fs : FS) (b r : list string) :
  spawned (trace (main host fs)) = [b; r] ->
  exists o,
    b !! 7%nat = Some "-o" /\
    b !! 8%nat = Some o /\
    r = if decide (platform_system host = "Windows") then [o] else ["./" +:+ o].
Proof.
  intros Hsp. pose proof (main_cases host fs) as Hc. cbv zeta in Hc.
  unfold spawned in Hsp.
  assert (Hbuild : forall c,
            exists o,
              build_cmd host c !! 7%nat = Some "-o" /\
              build_cmd host c !! 8%nat = Some o /\
              run_cmd host (exe_name host) =
              if decide (platform_system host = "Windows")
              then [o] else ["./" +:+ o]).
  { intros c. exists (exe_name host). unfold build_cmd, run_cmd.
    pose proof (is_windows_spec host) as Hw.
    destruct (decide (platform_system host = "Windows")) as [Hwin|Hnwin].
    - rewrite (proj2 Hw Hwin). cbn [andb]. by destruct (str_in "g++" c).
    - destruct (is_windows host); [exfalso; by apply Hnwin, Hw | done]. }
  destruct (missing fs required_files) as [|g l];
    [|destruct Hc as [_ Hs]; by rewrite Hs in Hsp].
  destruct (clean_build fs) as [[[[]|e] fs1] t1];
    [|destruct Hc as [_ Hs]; by rewrite Hs in Hsp].
  destruct (List.find (found host) compilers) as [c|];
    [|destruct Hc as [_ Hs]; by rewrite Hs in Hsp].
  cbv zeta in Hc.
  destruct (spawn host (build_cmd host c) fs1) as [[[rc out err| |m]|] fs2];
    [destruct (built host rc out err)|..]; destruct Hc as [_ Hs]; rewrite Hs in Hsp;
    try discriminate Hsp.
  injection Hsp as <- <-. apply Hbuild.
Qed.

Lemma check_compiler_printed (host : Host) fs :
  printed (trace (check_compiler host fs)) =
  match List.find (found host) compilers with
  | Some c => ["✅ Found compiler: " +:+ c]
  | None =>
      [ "❌ No C++ compiler found!";
        "Please install one of the following:";
        "  - MinGW-w64 (Windows): https://www.mingw-w64.org/";
        "  - GCC (Linux): sudo apt install g++";
        "  - Xcode Command Line Tools (macOS): xcode-select --install" ]
  end /\
  removals (trace (check_compiler host fs)) = [].
Proof.
  unfold check_compiler, compilers, found. cbn [check_compiler_loop List.find]. run.
  destruct (truthy (shutil_which host "g++")); [done|].
  destruct (truthy (shutil_which host "clang++")); done.
Qed.

Lemma compile_project_no_removal (host : Host) compiler fs :
  removals (trace (compile_project host compiler fs)) = [].
Proof.
  rewrite compile_project_run.
  destruct (spawn host (build_cmd host compiler) fs) as [[[rc out err| |m]|] fs'];
    [destruct (captured host out err) as [[o e]|reason];
       [destruct (rc =? 0)|]|..]; reflexivity.
Qed.

Lemma run_executable_no_removal (host : Host) exe fs :
  removals (trace (run_executable host exe fs)) = [].
Proof.
  rewrite run_executable_run.
  destruct (spawn host (run_cmd host exe) fs) as [[[rc out err| |m]|] fs'];
    [destruct (rc =? 0)|..]; reflexivity.
Qed.

Lemma main_removals (host : Host) fs :
  removals (trace (main host fs)) =
  match missing fs required_files with
  | [] => removals (trace (clean_build fs))
  | _ :: _ => []
  end.
Proof.
  rewrite main_run. destruct (missing fs required_files) as [|g l]; [|done].
  destruct (clean_build fs) as [[[[]|e] fs1] t1]; cbn [trace snd];
    [|by rewrite removals_app].
  pose proof (check_compiler_printed host fs1) as [_ Hr2].
  destruct (check_compiler host fs1) as [[[compiler|e] fs2] t2];
    cbn [trace snd] in *; [|by rewrite !removals_app, Hr2, app_nil_r].
  destruct (negb (truthy compiler));
    [cbn [trace snd]; by rewrite !removals_app, Hr2, app_nil_r|].
  pose proof (compile_project_no_removal host (default "" compiler) fs2) as Hr3.
  destruct (compile_project host (default "" compiler) fs2)
    as [[[exe|e] fs3] t3]; cbn [trace snd] in *;
    [|by rewrite !removals_app, Hr2, Hr3, !app_nil_r].
  destruct (negb (truthy exe));
    [cbn [trace snd]; by rewrite !removals_app, Hr2, Hr3, !app_nil_r|].
  pose proof (run_executable_no_removal host (default "" exe) fs3) as Hr4.
  destruct (run_executable host (default "" exe) fs3) as [[[[]|e] fs4] t4];
    cbn [trace snd] in *; by rewrite !removals_app, Hr2, Hr3, Hr4, !app_nil_r.
Qed.

(** X13.  The only files a run of [main] itself removes are candidate
    artifact names that were files when it started; it never removes
    main.cpp, User.h or RideManager.h, and removes nothing at all when
    Preflight fails. *)
Theorem main_removes_only_stale_artifacts (host : Host) (fs : FS) :
  (forall p, In p (removals (trace (main host fs))) ->
             In p files_to_remove /\ fs !! p = Some File /\
             ~ In p required_files) /\
  (missing fs required_files <> [] -> removals (trace (main host fs)) = []).
Proof.
  rewrite main_removals. split.
  - destruct (missing fs required_files); [|done].
    intros p Hp. apply clean_build_loop_removals in Hp as [Hin Hfile].
    apply list_elem_of_In in Hin. split; [done|]. split; [done|].
    destruct Hin as [<-|[<-|[<-|[]]]];
      intros [?|[?|[?|[]]]]; discriminate.
  - by destruct (missing fs required_files).
Qed.

(** X14.  Every run of [main] begins the same way: the three banner
    lines, the change into the script's directory, the working-directory
    line, and then an existence test of each of main.cpp, User.h and
    RideManager.h in that order; all three are tested even when an earlier
    one is already missing, and nothing touches the file system before the
    change of directory. *)
Theorem main_begins_with_preflight (host : Host) (fs : FS) :
  exists rest,
    trace (main host fs) =
    [ EPrint (str_mul "=" 50);
      EPrint "🚗 RideEasy - Ride Sharing Platform";
      EPrint (str_mul "=" 50);
      EChdir (script_dir host);
      EPrint ("📁 Working directory: " +:+ script_dir host);
      EExists "main.cpp" (path_exists fs "main.cpp");
      EExists "User.h" (path_exists fs "User.h");
      EExists "RideManager.h" (path_exists fs "RideManager.h") ] ++ rest.
Proof.
  change [ EPrint (str_mul "=" 50);
           EPrint "🚗 RideEasy - Ride Sharing Platform";
           EPrint (str_mul "=" 50);
           EChdir (script_dir host);
           EPrint ("📁 Working directory: " +:+ script_dir host);
           EExists "main.cpp" (path_exists fs "main.cpp");
           EExists "User.h" (path_exists fs "User.h");
           EExists "RideManager.h" (path_exists fs "RideManager.h") ]
    with (preflight_trace host fs).
  rewrite main_run. destruct (missing fs required_files) as [|g l];
    [|by eexists].
  destruct (clean_build fs) as [[[[]|e] fs1] t1]; [|by eexists].
  destruct (check_compiler host fs1) as [[[compiler|e] fs2] t2]; [|by eexists].
  destruct (negb (truthy compiler)); [by eexists|].
  destruct (compile_project host (default "" compiler) fs2)
    as [[[exe|e] fs3] t3]; [|by eexists].
  destruct (negb (truthy exe)); [by eexists|].
  destruct (run_executable host (default "" exe) fs3) as [[[[]|e] fs4] t4];
    by eexists.
Qed.

(** X15.  [check_compiler] prints one line naming the compiler it returns,
    or, when it returns [None], the no-compiler line followed by the install
    hints for Windows, Linux and macOS, all three whatever the host
    platform is. *)
Theorem resolver_report (host : Host) (fs : FS) :
  printed (trace (check_compiler host fs)) =
  match outcome (check_compiler host fs) with
  | Ok (Some c) => ["✅ Found compiler: " +:+ c]
  | _ =>
      [ "❌ No C++ compiler found!";
        "Please install one of the following:";
        "  - MinGW-w64 (Windows): https://www.mingw-w64.org/";
        "  - GCC (Linux): sudo apt install g++";
        "  - Xcode Command Line Tools (macOS): xcode-select --install" ]
  end.
Proof.
  destruct (check_compiler_run host fs) as (Ho & _).
  destruct (check_compiler_printed host fs) as [Hp _].
  rewrite Ho, Hp. by destruct (List.find (found host) compilers).
Qed.

Lemma clean_build_first fs :
  exists t,
    trace (clean_build fs) =
    EExists "rideeasy.exe" (path_exists fs "rideeasy.exe") :: t.
Proof.
  unfold clean_build, files_to_remove. rewrite clean_build_loop_step.
  unfold path_exists. destruct (fs !! "rideeasy.exe") as [[| |]|].
  - destruct (clean_build_loop _ _) as [[r fs'] t]. by eexists.
  - by eexists.
  - by eexists.
  - destruct (clean_build_loop _ _) as [[r fs'] t]. by eexists.
Qed.

(** X16.  Clean starts exactly when each of main.cpp, User.h and
    RideManager.h exists in the working directory; Preflight asks only
    whether the path exists, so a directory of that name passes too. *)
Theorem clean_starts_iff_sources_exist (host : Host) (fs : FS) :
  (forall f, In f required_files -> fs !! f <> None) <->
  In (EExists "rideeasy.exe" (path_exists fs "rideeasy.exe"))
     (trace (main host fs)).
Proof.
  rewrite <- missing_nil. split.
  - intros Hm. rewrite main_run, Hm.
    destruct (clean_build_first fs) as [t Ht].
    assert (Hin : forall t1 rest,
              t1 = EExists "rideeasy.exe" (path_exists fs "rideeasy.exe") :: t ->
              In (EExists "rideeasy.exe" (path_exists fs "rideeasy.exe"))
                 (preflight_trace host fs ++ t1 ++ rest)).
    { intros t1 rest ->. apply in_or_app. right. by left. }
    destruct (clean_build fs) as [[[[]|e] fs1] t1]; cbn [trace snd] in *.
    2:{ rewrite <- (app_nil_r t1). by apply Hin. }
    destruct (check_compiler host fs1) as [[[compiler|e] fs2] t2];
      [|by apply Hin].
    destruct (negb (truthy compiler)); [by apply Hin|].
    destruct (compile_project host (default "" compiler) fs2)
      as [[[exe|e] fs3] t3]; [|by apply Hin].
    destruct (negb (truthy exe)); [by apply Hin|].
    destruct (run_executable host (default "" exe) fs3) as [[[[]|e] fs4] t4];
      by apply Hin.
  - intros Hin. destruct (missing fs required_files) as [|g l] eqn:Hm; [done|].
    exfalso. rewrite main_missing in Hin by (by rewrite Hm).
    cbn [trace snd] in Hin. apply in_app_or in Hin as [Hin|[Hin|[]]]; [|done].
    unfold preflight_trace in Hin. apply in_app_or in Hin as [Hin|Hin].
    + destruct Hin as [?|[?|[?|[?|[?|[]]]]]]; discriminate.
    + destruct Hin as [?|[?|[?|[]]]]; discriminate.
Qed.

(** ** The further properties on concrete runs *)

Lemma clean_raises_on_directory_run :
  (exists m, outcome (main linux_box blocked_checkout) = Raise (OSError m)) /\
  final_fs (main linux_box blocked_checkout) !! "a.out" = Some Dir /\
  spawns (trace (main linux_box blocked_checkout)) = [].
Proof.
  destruct (clean_raises_on_directory linux_box blocked_checkout "a.out")
    as (_ & _ & Hmain); [right; right; by left | reflexivity |].
  destruct (Hmain eq_refl) as (Hout & Hdir & _ & Hsp).
  split; [exact Hout|]. split; [exact Hdir | exact Hsp].
Defined.

Lemma build_success_discards_output_run :
  printed (trace (compile_project linux_box "g++" checkout)) =
    [ NL +:+ "🔨 Compiling with g++...";
      "Command: g++ -std=c++17 -Wall -Wextra -O2 -I. main.cpp -o rideeasy";
      "✅ Compilation successful!" ].
Proof.
  exact (proj1 (build_success_discards_output linux_box "g++" checkout
                  "" "" "" "" (<["rideeasy" := File]> checkout)
                  eq_refl eq_refl)).
Defined.

Lemma compile_returns_name_only_on_zero_run :
  exists out err fs',
    spawn linux_box (build_cmd linux_box "g++") checkout =
    (Result (Completed 0 out err), fs').
Proof.
  exact (proj2 (proj2 (compile_returns_name_only_on_zero
                         linux_box "g++" checkout "rideeasy" eq_refl))).
Defined.

Lemma build_interrupt_escapes_run :
  outcome (compile_project interrupted_box "g++" checkout) = Raise KeyboardInterrupt /\
  outcome (main interrupted_box checkout) = Raise KeyboardInterrupt /\
  spawned (trace (main interrupted_box checkout)) = [build_cmd interrupted_box "g++"].
Proof.
  destruct (build_interrupt_escapes interrupted_box "g++" checkout checkout eq_refl)
    as (Hb & _ & Hmain).
  split; [exact Hb|].
  exact (Hmain checkout eq_refl eq_refl eq_refl eq_refl).
Defined.

Lemma static_flags_for_resolved_compiler_run :
  build_cmd windows_box "clang++" =
    [ "clang++"; "-std=c++17"; "-Wall"; "-Wextra"; "-O2"; "-I."; "main.cpp";
      "-o"; "rideeasy.exe"; "-static-libgcc"; "-static-libstdc++" ].
Proof.
  exact (proj2 (static_flags_for_resolved_compiler
                  windows_box checkout "clang++" eq_refl)).
Defined.

Lemma run_target_is_build_output_run :
  exists o,
    build_cmd linux_box "g++" !! 8%nat = Some o /\ ["./rideeasy"] = ["./" +:+ o].
Proof.
  destruct (run_target_is_build_output linux_box checkout
              (build_cmd linux_box "g++") ["./rideeasy"] eq_refl)
    as (o & _ & Ho & Hr).
  exists o. split; [exact Ho | exact Hr].
Defined.

Lemma clean_raises_on_undeletable_file_run :
  (exists m, outcome (main windows_box locked_checkout) = Raise (OSError m)) /\
  final_fs (main windows_box locked_checkout) !! "rideeasy.exe" = Some Locked /\
  spawns (trace (main windows_box locked_checkout)) = [].
Proof.
  destruct (clean_raises_on_undeletable_file
              windows_box locked_checkout "rideeasy.exe")
    as (_ & _ & Hmain); [by left | reflexivity |].
  destruct (Hmain eq_refl) as (Hout & Hstay & _ & Hsp).
  split; [exact Hout|]. split; [exact Hstay | exact Hsp].
Defined.

